(** * WaveGenerator: a shallow embedding of the WAVE encoder

    The development follows the three translation units of the program:
    [WaveHeader.h] (module [wave]), [SineWaveGen.h] (module [wavegen]) and
    [main.cpp] (the encoder, the file output and [create_wave_file]).

    Conventions.
    - A [uintN_t] or [intN_t] value is a [Z]; every place where C++ converts
      to a narrower unsigned type is written out with [to_uintN]. A right
      shift of a negative [int32_t] is the arithmetic one, [Z.shiftr].
    - A [double] is a binary64 [float] of the kernel; the operations are the
      IEEE 754 ones in round-to-nearest-even.
    - A byte is a [Z] in [0, 255]; a byte buffer is a [list Z].
    - A conversion from [double] to an integer type whose truncated value
      does not fit the destination has undefined behaviour in C++; the model
      gives such a run the outcome [Undefined].
    - [std::sin] is not fixed by IEEE 754, so the definitions take the sine
      as a parameter [sin]; [sin_ref] is one concrete sine used to run the
      model on inputs. *)

From Stdlib Require Import ZArith List Lia Bool String QArith Qround.
From Stdlib Require Import Floats.
Import ListNotations.
Local Open Scope Z_scope.

(** ** Fixed-width integers *)

Definition UINT32_MAX : Z := 4294967295.
Definition UINT64_MAX : Z := 18446744073709551615.
Definition INT32_MIN : Z := -2147483648.
Definition INT32_MAX : Z := 2147483647.

Definition to_uint8 (z : Z) : Z := z mod 2 ^ 8.
Definition to_uint16 (z : Z) : Z := z mod 2 ^ 16.
Definition to_uint32 (z : Z) : Z := z mod 2 ^ 32.

Definition is_byte (b : Z) : Prop := 0 <= b <= 255.

(** Little-endian object representation of an unsigned integer on [n]
    bytes, and the value of a little-endian byte string. *)
Fixpoint le_bytes (n : nat) (z : Z) : list Z :=
  match n with
  | O => []
  | S k => to_uint8 z :: le_bytes k (Z.shiftr z 8)
  end.

Fixpoint le_value (bs : list Z) : Z :=
  match bs with
  | [] => 0
  | b :: rest => b + 256 * le_value rest
  end.

(** [std::memcpy (dst, src, n)] on buffers. *)
Definition memcpy (dst src : list Z) (n : nat) : list Z :=
  firstn n src ++ skipn n dst.

(** The bytes of a string literal, without the terminating zero. *)
Fixpoint chars (s : string) : list Z :=
  match s with
  | EmptyString => []
  | String c rest => Z.of_nat (Ascii.nat_of_ascii c) :: chars rest
  end.

(** ** Outcomes of a call *)

Inductive exception : Type :=
| invalid_argument (what : string)
| overflow_error (what : string)
| ios_failure (what : string).

Inductive outcome (A : Type) : Type :=
| Returns (a : A)
| Throws (e : exception)
| Undefined.
Arguments Returns {A} a.
Arguments Throws {A} e.
Arguments Undefined {A}.

Definition bind {A B : Type} (m : outcome A) (k : A -> outcome B) : outcome B :=
  match m with
  | Returns a => k a
  | Throws e => Throws e
  | Undefined => Undefined
  end.

Definition defined {A : Type} (o : option A) : outcome A :=
  match o with
  | Some a => Returns a
  | None => Undefined
  end.

Notation "x <- m ;; k" := (bind m (fun x => k))
  (at level 61, m at next level, right associativity).

(** ** binary64 *)

Module Double.

(** Conversion of an unsigned 32-bit value (exact). *)
Definition of_uint32 (z : Z) : float := PrimFloat.of_uint63 (Uint63.of_Z z).

(** Conversion of a signed integer of less than 63 bits. *)
Definition of_int (z : Z) : float :=
  if z <? 0 then PrimFloat.opp (PrimFloat.of_uint63 (Uint63.of_Z (- z)))
  else PrimFloat.of_uint63 (Uint63.of_Z z).

(** The value with its fractional part discarded; infinities and NaN have
    none. *)
Definition truncate (x : float) : option Z :=
  match Prim2SF x with
  | S754_zero _ => Some 0
  | S754_finite s m e => Some (cond_Zopp s (Z.shiftl (Z.pos m) e))
  | S754_infinity _ => None
  | S754_nan => None
  end.

(** Floating-integral conversion to an integer type with values
    [lo .. hi]: defined when the truncated value is one of them. *)
Definition to_integer (lo hi : Z) (x : float) : option Z :=
  match truncate x with
  | Some z => if (lo <=? z) && (z <=? hi) then Some z else None
  | None => None
  end.

Definition to_uint64 : float -> option Z := to_integer 0 UINT64_MAX.
Definition to_uint32 : float -> option Z := to_integer 0 UINT32_MAX.
Definition to_int32 : float -> option Z := to_integer INT32_MIN INT32_MAX.

(** The exact rational value of a finite double. *)
Definition to_Q (x : float) : option Q :=
  match Prim2SF x with
  | S754_zero _ => Some 0%Q
  | S754_finite s m e =>
      Some (if 0 <=? e then inject_Z (cond_Zopp s (Z.shiftl (Z.pos m) e))
            else Qmake (cond_Zopp s (Z.pos m)) (Z.to_pos (2 ^ (- e))))
  | S754_infinity _ => None
  | S754_nan => None
  end.

End Double.

(** ** WaveHeader.h *)

Module wave.

Record WaveHeader : Type := {
  file_type_bloc_id : list Z;  (* uint8_t[4] *)
  file_size : Z;               (* uint32_t *)
  file_format_id : list Z;     (* uint8_t[4] *)
  format_bloc_id : list Z;     (* uint8_t[4] *)
  bloc_size : Z;               (* uint32_t *)
  audio_format : Z;            (* uint16_t *)
  channel_count : Z;           (* uint16_t *)
  sample_rate : Z;             (* uint32_t *)
  bytes_per_sec : Z;           (* uint32_t *)
  bytes_per_bloc : Z;          (* uint16_t *)
  bits_per_sample : Z;         (* uint16_t *)
  data_bloc_id : list Z;       (* uint8_t[4] *)
  data_size : Z                (* uint32_t *)
}.

(** [WaveHeader hdr{}]: every member zero. *)
Definition zero : WaveHeader := {|
  file_type_bloc_id := [0; 0; 0; 0]; file_size := 0;
  file_format_id := [0; 0; 0; 0]; format_bloc_id := [0; 0; 0; 0];
  bloc_size := 0; audio_format := 0; channel_count := 0; sample_rate := 0;
  bytes_per_sec := 0; bytes_per_bloc := 0; bits_per_sample := 0;
  data_bloc_id := [0; 0; 0; 0]; data_size := 0 |}.

(** The object representation of the struct on a little-endian target:
    every member sits at a multiple of its alignment, so the members
    follow one another without padding. A [uint8_t[4]] member holds
    four bytes. *)
Definition object_bytes (h : WaveHeader) : list Z :=
  file_type_bloc_id h ++ le_bytes 4 (file_size h)
  ++ file_format_id h
  ++ format_bloc_id h ++ le_bytes 4 (bloc_size h)
  ++ le_bytes 2 (audio_format h) ++ le_bytes 2 (channel_count h)
  ++ le_bytes 4 (sample_rate h) ++ le_bytes 4 (bytes_per_sec h)
  ++ le_bytes 2 (bytes_per_bloc h) ++ le_bytes 2 (bits_per_sample h)
  ++ data_bloc_id h ++ le_bytes 4 (data_size h).

Definition sizeof_WaveHeader : Z := 4 + 4 + 4 + 4 + 4 + 2 + 2 + 4 + 4 + 2 + 2 + 4 + 4.
Definition sizeof_char : Z := 1.

Definition k_header_size : Z := to_uint16 (sizeof_WaveHeader / sizeof_char).
Definition k_header_bloc_size : Z := 16.
Definition k_channel_count_mono : Z := 1.
Definition k_channel_count_stereo : Z := 2.
Definition k_audio_format_PCM : Z := 1.
Definition k_audio_format_IEEE_754 : Z := 3.

(** Byte offsets of the members read back by the theorems. *)
Definition off_file_size : nat := 4.
Definition off_channel_count : nat := 22.
Definition off_sample_rate : nat := 24.
Definition off_bytes_per_sec : nat := 28.
Definition off_bytes_per_bloc : nat := 32.
Definition off_bits_per_sample : nat := 34.
Definition off_data_size : nat := 40.

(** The unsigned little-endian field of [width] bytes at offset [off]. *)
Definition field (off width : nat) (bytes : list Z) : Z :=
  le_value (firstn width (skipn off bytes)).

End wave.

(** ** SineWaveGen.h *)

Module wavegen.

(** [k_PI {3.141592653589793}], whose nearest double is this one. *)
Definition k_PI : float := 0x1.921fb54442d18p+1%float.

Record sine_wave_generator : Type := {
  m_amplitude : Z;    (* uint32_t *)
  m_frequency : Z;    (* uint32_t *)
  m_sample_rate : Z   (* uint32_t *)
}.

Section GetSample.
Variable sin : float -> float.

Definition get_sample (g : sine_wave_generator) (sample_index : Z) : option Z :=
  let time_increment := (1 / Double.of_uint32 (m_sample_rate g))%float in
  let sample_time := (Double.of_uint32 sample_index * time_increment)%float in
  Double.to_int32
    (Double.of_uint32 (m_amplitude g)
     * sin (2 * k_PI * Double.of_uint32 (m_frequency g) * sample_time))%float.
End GetSample.

(** A concrete sine: the argument is reduced by the nearest multiple of
    2 pi and the Taylor polynomial of degree 21 is evaluated by Horner's
    rule. *)
Definition sin_ref (x : float) : float :=
  let two_pi := (2 * k_PI)%float in
  let half := if (x <? 0)%float then (-0.5)%float else 0.5%float in
  match Double.truncate (x / two_pi + half)%float with
  | None => PrimFloat.nan
  | Some k =>
      let r := (x - Double.of_int k * two_pi)%float in
      let r2 := (r * r)%float in
      (r * (1 - r2 / 6 * (1 - r2 / 20 * (1 - r2 / 42 * (1 - r2 / 72
         * (1 - r2 / 110 * (1 - r2 / 156 * (1 - r2 / 210 * (1 - r2 / 272
         * (1 - r2 / 342 * (1 - r2 / 420)))))))))))%float
  end.

End wavegen.


(** ** main.cpp *)

Definition k_sample_rate : Z := 48000.
Definition k_bits_per_sample : Z := 24.

(** [k_amplitude] is 30'000'000 in the current revision of main.cpp and was
    300'000 in the one before; the encoder is stated over the constant. *)
Definition k_amplitude_current : Z := 30000000.
Definition k_amplitude_previous : Z := 300000.

(** Indeterminate storage: the bytes an object holds before it is
    initialised. *)
Definition storage : Type := nat -> Z.

(** [std::array<uint8_t, N> a;] without initialiser. *)
Definition uninitialised_array (N : nat) (mem : storage) : list Z :=
  map (fun i => to_uint8 (mem i)) (seq 0 N).

(** The header members set by [create_wave_header] before the data size is
    known. *)
Definition header_format : wave.WaveHeader :=
  let hdr := wave.zero in
  let hdr := {| wave.file_type_bloc_id := memcpy (wave.file_type_bloc_id hdr) (chars "RIFF") 4;
                wave.file_size := wave.file_size hdr;
                wave.file_format_id := memcpy (wave.file_format_id hdr) (chars "WAVE") 4;
                wave.format_bloc_id := memcpy (wave.format_bloc_id hdr) (chars "fmt ") 4;
                wave.bloc_size := wave.k_header_bloc_size;
                wave.audio_format := wave.k_audio_format_PCM;
                wave.channel_count := wave.k_channel_count_mono;
                wave.sample_rate := k_sample_rate;
                wave.bytes_per_sec := wave.bytes_per_sec hdr;
                wave.bytes_per_bloc := wave.bytes_per_bloc hdr;
                wave.bits_per_sample := k_bits_per_sample;
                wave.data_bloc_id := memcpy (wave.data_bloc_id hdr) (chars "data") 4;
                wave.data_size := wave.data_size hdr |} in
  let bytes_per_bloc :=
    to_uint16 (wave.channel_count hdr * wave.bits_per_sample hdr / 8) in
  let bytes_per_sec := to_uint32 (wave.sample_rate hdr * bytes_per_bloc) in
  {| wave.file_type_bloc_id := wave.file_type_bloc_id hdr;
     wave.file_size := wave.file_size hdr;
     wave.file_format_id := wave.file_format_id hdr;
     wave.format_bloc_id := wave.format_bloc_id hdr;
     wave.bloc_size := wave.bloc_size hdr;
     wave.audio_format := wave.audio_format hdr;
     wave.channel_count := wave.channel_count hdr;
     wave.sample_rate := wave.sample_rate hdr;
     wave.bytes_per_sec := bytes_per_sec;
     wave.bytes_per_bloc := bytes_per_bloc;
     wave.bits_per_sample := wave.bits_per_sample hdr;
     wave.data_bloc_id := wave.data_bloc_id hdr;
     wave.data_size := wave.data_size hdr |}.

(** The local [uint64_t data_size] of [create_wave_header]. *)
Definition computed_data_size (file_length_sec : float) : option Z :=
  Double.to_uint64
    (file_length_sec * Double.of_uint32 (wave.bytes_per_sec header_format))%float.

Definition overflow_message : string :=
  "File generation failed. Data size exceeds the maximum limit.".

(** [create_wave_header]; [mem] is what the local array [header] holds
    before the final [memcpy]. *)
Definition create_wave_header (mem : storage) (file_length_sec : float)
  : outcome (list Z) :=
  let hdr := header_format in
  data_size <- defined (computed_data_size file_length_sec) ;;
  if UINT32_MAX <? data_size then Throws (overflow_error overflow_message)
  else
    let hdr_data_size := to_uint32 data_size in
    let hdr_file_size := to_uint32 (wave.k_header_size + hdr_data_size - 8) in
    let hdr := {| wave.file_type_bloc_id := wave.file_type_bloc_id hdr;
                  wave.file_size := hdr_file_size;
                  wave.file_format_id := wave.file_format_id hdr;
                  wave.format_bloc_id := wave.format_bloc_id hdr;
                  wave.bloc_size := wave.bloc_size hdr;
                  wave.audio_format := wave.audio_format hdr;
                  wave.channel_count := wave.channel_count hdr;
                  wave.sample_rate := wave.sample_rate hdr;
                  wave.bytes_per_sec := wave.bytes_per_sec hdr;
                  wave.bytes_per_bloc := wave.bytes_per_bloc hdr;
                  wave.bits_per_sample := wave.bits_per_sample hdr;
                  wave.data_bloc_id := wave.data_bloc_id hdr;
                  wave.data_size := hdr_data_size |} in
    let header := uninitialised_array (Z.to_nat wave.k_header_size) mem in
    Returns (memcpy header (wave.object_bytes hdr) (Z.to_nat wave.k_header_size)).

(** The three [push_back]s of one loop iteration: each argument is an [int]
    converted to [uint8_t]. *)
Definition push_sample (samples : list Z) (sample : Z) : list Z :=
  let samples := samples ++ [to_uint8 (Z.land sample 255)] in
  let samples := samples ++ [to_uint8 (Z.land (Z.shiftr sample 8) 255)] in
  samples ++ [to_uint8 (Z.land (Z.shiftr sample 16) 255)].

Section Encoder.
Variable sin : float -> float.
Variable k_amplitude : Z.

(** The local [uint32_t total_sample_count] of [create_wave_data]. *)
Definition total_sample_count (file_length_sec : float) : option Z :=
  Double.to_uint32 (Double.of_uint32 k_sample_rate * file_length_sec)%float.

(** The [for] loop of [create_wave_data], with [remaining] iterations to
    go. *)
Fixpoint sample_loop (audio_source : wavegen.sine_wave_generator)
    (remaining : nat) (sample_index : Z) (samples : list Z)
  : outcome (list Z) :=
  match remaining with
  | O => Returns samples
  | S k =>
      sample <- defined (wavegen.get_sample sin audio_source sample_index) ;;
      sample_loop audio_source k (sample_index + 1) (push_sample samples sample)
  end.

Definition audio_source_of (wave_frequency : Z) : wavegen.sine_wave_generator :=
  {| wavegen.m_amplitude := k_amplitude;
     wavegen.m_frequency := wave_frequency;
     wavegen.m_sample_rate := k_sample_rate |}.

Definition create_wave_data (wave_frequency : Z) (file_length_sec : float)
  : outcome (list Z) :=
  let samples := [] in
  let audio_source := audio_source_of wave_frequency in
  total <- defined (total_sample_count file_length_sec) ;;
  sample_loop audio_source (Z.to_nat total) 0 samples.
End Encoder.

(** ** The output file

    What the program does to the file system is recorded as a trace of
    events; whether an open or a write succeeds is for the environment to
    say. *)

Inductive event : Type :=
| ev_open (path : string) (ok : bool)
| ev_write (bytes : list Z) (ok : bool)
| ev_close.

Record environment : Type := {
  can_open : string -> bool;
  header_write_ok : bool;
  data_write_ok : bool
}.

(** A run: the indeterminate storage it finds and its environment. *)
Record run : Type := {
  run_storage : storage;
  run_env : environment
}.

Definition action (A : Type) : Type := (outcome A * list event)%type.

Definition lift {A : Type} (o : outcome A) : action A := (o, []).

Definition then_do {A B : Type} (m : action A) (k : A -> action B) : action B :=
  match m with
  | (Returns a, t) => let (r, t') := k a in (r, t ++ t')
  | (Throws e, t) => (Throws e, t)
  | (Undefined, t) => (Undefined, t)
  end.

Notation "x <~ m ;; k" := (then_do m (fun x => k))
  (at level 61, m at next level, right associativity).

Definition open_message (file_path : string) : string :=
  ("File generation failed. Failed to open file " ++ file_path)%string.
Definition header_write_message : string :=
  "File generation failed. Failed to write header data to file.".
Definition data_write_message : string :=
  "File generation failed. Failed to write audio data to file.".
Definition length_message : string :=
  "Invalid argument. File length should be greater than 0.".
Definition frequency_message : string :=
  "Invalid argument. Wave frequency should be less than or equal to half of the sample rate.".

Definition write_to_file (env : environment) (hdr : list Z) (hdr_size : Z)
    (data : list Z) (data_size : Z) (file_path : string) : action unit :=
  if negb (can_open env file_path) then
    (Throws (ios_failure (open_message file_path)), [ev_open file_path false])
  else
    let hdr_bytes := firstn (Z.to_nat hdr_size) hdr in
    let data_bytes := firstn (Z.to_nat data_size) data in
    if negb (header_write_ok env) then
      (Throws (ios_failure header_write_message),
       [ev_open file_path true; ev_write hdr_bytes false; ev_close])
    else if negb (data_write_ok env) then
      (Throws (ios_failure data_write_message),
       [ev_open file_path true; ev_write hdr_bytes true;
        ev_write data_bytes false; ev_close])
    else
      (Returns tt,
       [ev_open file_path true; ev_write hdr_bytes true;
        ev_write data_bytes true; ev_close]).

Section Program.
Variable sin : float -> float.
Variable k_amplitude : Z.

Definition create_wave_file (r : run) (wave_frequency : Z)
    (file_length_sec : float) : action unit :=
  if (file_length_sec <=? 0)%float then
    lift (Throws (invalid_argument length_message))
  else if k_sample_rate / 2 <? wave_frequency then
    lift (Throws (invalid_argument frequency_message))
  else
    header <~ lift (create_wave_header (run_storage r) file_length_sec) ;;
    samples <~ lift (create_wave_data sin k_amplitude wave_frequency file_length_sec) ;;
    let file_path := "audio.wav"%string in
    write_to_file (run_env r) header (to_uint32 (Z.of_nat (List.length header)))
      samples (to_uint32 (Z.of_nat (List.length samples))) file_path.
End Program.

(** ** Reference definitions taken from the specification's wording *)

(** Nearest-integer rounding of the exact product
    sample_rate x duration_seconds. *)
Definition spec_round_total_samples (duration_seconds : float) : option Z :=
  match Double.to_Q duration_seconds with
  | Some q => Some (Qfloor (Qplus (Qmult (inject_Z k_sample_rate) q) (Qmake 1 2)))
  | None => None
  end.

(** A reader of one little-endian 24-bit two's-complement sample. *)
Definition decode_s24le (bytes : list Z) : option Z :=
  match bytes with
  | [b0; b1; b2] =>
      let u := b0 + 256 * b1 + 65536 * b2 in
      Some (if u <? 2 ^ 23 then u else u - 2 ^ 24)
  | _ => None
  end.

(** Saturation to the 24-bit signed range. *)
Definition clamp_s24 (v : Z) : Z := Z.max (- 2 ^ 23) (Z.min (2 ^ 23 - 1) v).

(** The bytes one sample contributes, the sample values the loop reads, and
    a run whose environment lets every operation succeed: auxiliary
    definitions for the statements below. *)
Definition sample_bytes (sample : Z) : list Z := push_sample [] sample.

Fixpoint collect (sin : float -> float) (src : wavegen.sine_wave_generator)
    (n : nat) (sample_index : Z) : option (list Z) :=
  match n with
  | O => Some []
  | S k =>
      match wavegen.get_sample sin src sample_index with
      | None => None
      | Some v =>
          match collect sin src k (sample_index + 1) with
          | None => None
          | Some vs => Some (v :: vs)
          end
      end
  end.

Fixpoint samples_defined_from (sin : float -> float)
    (src : wavegen.sine_wave_generator) (n : nat) (sample_index : Z) : bool :=
  match n with
  | O => true
  | S k =>
      match wavegen.get_sample sin src sample_index with
      | Some _ => samples_defined_from sin src k (sample_index + 1)
      | None => false
      end
  end.

(** The source yields a value at each of the indices 0, ..., n - 1. *)
Definition samples_defined (sin : float -> float)
    (src : wavegen.sine_wave_generator) (n : nat) : bool :=
  samples_defined_from sin src n 0.

Definition quiet_run : run :=
  {| run_storage := fun _ => 0;
     run_env := {| can_open := fun _ => true;
                   header_write_ok := true;
                   data_write_ok := true |} |}.

(** A second run: other storage contents, same environment answers. *)
Definition noisy_run : run :=
  {| run_storage := fun i => Z.of_nat i + 170;
     run_env := run_env quiet_run |}.

(** The 44 bytes of a header whose data size is [data_size], member by
    member. *)
Definition encoded_header (data_size : Z) : list Z :=
  chars "RIFF" ++ le_bytes 4 (to_uint32 (wave.k_header_size + to_uint32 data_size - 8))
  ++ chars "WAVE" ++ chars "fmt " ++ le_bytes 4 16 ++ le_bytes 2 1 ++ le_bytes 2 1
  ++ le_bytes 4 48000 ++ le_bytes 4 144000 ++ le_bytes 2 3 ++ le_bytes 2 24
  ++ chars "data" ++ le_bytes 4 (to_uint32 data_size).

(** ** main.cpp: the command line and [main]

    What reaches the console is recorded item by item, as the stream
    insertions give it; [what e] stands for the text [e.what ()] of an
    exception. The library conversions [std::stoul] and [std::stod] are
    parameters: each gives a value, or [None] when it throws
    ([std::invalid_argument] or [std::out_of_range]). *)

Inductive item : Type :=
| text (s : string)
| unsigned (z : Z)
| floating (x : float)
| what (e : exception).

Inductive output : Type :=
| to_file (e : event)
| to_cout (items : list item)
| to_cerr (items : list item).

Definition newline : string := String (Ascii.ascii_of_nat 10) EmptyString.
Definition quote : string := String (Ascii.ascii_of_nat 34) EmptyString.

Definition usage_message (program : string) : string :=
  ("Invalid arguments. Usage: " ++ program ++ " <wave_frequency> <file_length_sec>")%string.
Definition numbers_message : string :=
  "Invalid arguments. Enter valid numbers for wave frequency and file length.".

Section CommandLine.
Variable stoul : string -> option Z.
Variable stod : string -> option float.
Variable sin : float -> float.
Variable k_amplitude : Z.

(** [parse_args]: [argc] is the length of [argv]; the result is the pair of
    the two reference parameters. With no argument at all [argv[0]] is
    null and building a [std::string] from it is undefined. *)
Definition parse_args (argv : list string) : outcome (Z * float) :=
  let argc := Z.of_nat (List.length argv) in
  if argc <? 3 then
    match argv with
    | [] => Undefined
    | program :: _ => Throws (invalid_argument (usage_message program))
    end
  else
    match stoul (nth 1 argv EmptyString) with
    | None => Throws (invalid_argument numbers_message)
    | Some converted =>
        let frequency := to_uint32 converted in
        match stod (nth 2 argv EmptyString) with
        | None => Throws (invalid_argument numbers_message)
        | Some file_length => Returns (frequency, file_length)
        end
    end.

Definition error_line (e : exception) : output :=
  to_cerr [text ("Error: " ++ quote)%string; what e; text (quote ++ newline)%string].

Definition main (r : run) (argv : list string) : outcome Z * list output :=
  match parse_args argv with
  | Returns (frequency, file_length) =>
      let banner :=
        to_cout [text "Generating a wave file with wave frequency ";
                 unsigned frequency; text "Hz and file length ";
                 floating file_length; text (" seconds..." ++ newline)%string] in
      match create_wave_file sin k_amplitude r frequency file_length with
      | (Returns _, t) =>
          (Returns 0,
           banner :: map to_file t ++ [to_cout [text ("Finished." ++ newline)%string]])
      | (Throws e, t) => (Returns (-1), banner :: map to_file t ++ [error_line e])
      | (Undefined, t) => (Undefined, banner :: map to_file t)
      end
  | Throws e => (Returns (-1), [error_line e])
  | Undefined => (Undefined, [])
  end.
End CommandLine.

(** ** src/unnamed/part_001: the first revision of main.cpp

    The duration is a whole number of seconds, the sample rate and the bit
    depth are arguments, and the frequency is the constant 1000. *)

Module part_001.

Definition k_amplitude : Z := 300000.
Definition k_frequency : Z := 1000.

(** [create_wave_header], declared [noexcept]. *)
Definition create_wave_header (mem : storage)
    (sample_rate file_length_sec bits_per_sample : Z) : list Z :=
  let hdr := wave.zero in
  let channel_count := wave.k_channel_count_mono in
  let bytes_per_bloc := to_uint16 (channel_count * bits_per_sample / 8) in
  let bytes_per_sec := to_uint32 (sample_rate * bytes_per_bloc) in
  let data_size := to_uint32 (file_length_sec * bytes_per_sec) in
  let file_size := to_uint32 (wave.k_header_size + data_size - 8) in
  let hdr := {| wave.file_type_bloc_id := memcpy (wave.file_type_bloc_id hdr) (chars "RIFF") 4;
                wave.file_size := file_size;
                wave.file_format_id := memcpy (wave.file_format_id hdr) (chars "WAVE") 4;
                wave.format_bloc_id := memcpy (wave.format_bloc_id hdr) (chars "fmt ") 4;
                wave.bloc_size := wave.k_header_bloc_size;
                wave.audio_format := wave.k_audio_format_PCM;
                wave.channel_count := channel_count;
                wave.sample_rate := sample_rate;
                wave.bytes_per_sec := bytes_per_sec;
                wave.bytes_per_bloc := bytes_per_bloc;
                wave.bits_per_sample := bits_per_sample;
                wave.data_bloc_id := memcpy (wave.data_bloc_id hdr) (chars "data") 4;
                wave.data_size := data_size |} in
  let header := uninitialised_array (Z.to_nat wave.k_header_size) mem in
  memcpy header (wave.object_bytes hdr) (Z.to_nat wave.k_header_size).

Definition total_sample_count (sample_rate file_length_sec : Z) : Z :=
  to_uint32 (sample_rate * file_length_sec).

Definition audio_source_of (sample_rate : Z) : wavegen.sine_wave_generator :=
  {| wavegen.m_amplitude := k_amplitude;
     wavegen.m_frequency := k_frequency;
     wavegen.m_sample_rate := sample_rate |}.

Definition create_wave_data (sin : float -> float)
    (sample_rate file_length_sec : Z) : outcome (list Z) :=
  let samples := [] in
  let audio_source := audio_source_of sample_rate in
  let total := total_sample_count sample_rate file_length_sec in
  sample_loop sin audio_source (Z.to_nat total) 0 samples.

Definition open_message (file_path : string) : string :=
  ("Failed to open file " ++ file_path)%string.
Definition header_write_message : string := "Failed to write header data to file.".
Definition data_write_message : string := "Failed to write audio data to file.".

Definition write_to_file (env : environment) (hdr : list Z) (hdr_size : Z)
    (data : list Z) (data_size : Z) (file_path : string) : action unit :=
  if negb (can_open env file_path) then
    (Throws (ios_failure (open_message file_path)), [ev_open file_path false])
  else
    let hdr_bytes := firstn (Z.to_nat hdr_size) hdr in
    let data_bytes := firstn (Z.to_nat data_size) data in
    if negb (header_write_ok env) then
      (Throws (ios_failure header_write_message),
       [ev_open file_path true; ev_write hdr_bytes false; ev_close])
    else if negb (data_write_ok env) then
      (Throws (ios_failure data_write_message),
       [ev_open file_path true; ev_write hdr_bytes true;
        ev_write data_bytes false; ev_close])
    else
      (Returns tt,
       [ev_open file_path true; ev_write hdr_bytes true;
        ev_write data_bytes true; ev_close]).

Definition failure_line (e : exception) : output :=
  to_cout [text ("File generation failed. Error: " ++ quote)%string; what e;
           text (quote ++ newline)%string].

(** [CreateWaveFile]: the whole body is a [try] block whose handler
    reports the exception on the console. *)
Definition CreateWaveFile (sin : float -> float) (r : run)
    (sample_rate file_length_sec bits_per_sample : Z) (file_path : string)
  : outcome unit * list output :=
  let header :=
    create_wave_header (run_storage r) sample_rate file_length_sec bits_per_sample in
  match (samples <~ lift (create_wave_data sin sample_rate file_length_sec) ;;
         write_to_file (run_env r) header (to_uint32 (Z.of_nat (List.length header)))
           samples (to_uint32 (Z.of_nat (List.length samples))) file_path) with
  | (Returns _, t) => (Returns tt, map to_file t)
  | (Throws e, t) => (Returns tt, map to_file t ++ [failure_line e])
  | (Undefined, t) => (Undefined, map to_file t)
  end.

Definition main (sin : float -> float) (r : run) : outcome Z * list output :=
  let sample_rate := 48000 in
  let file_length_sec := 5 in
  let bits_per_sample := 24 in
  let file_path := "audio.wav"%string in
  let start := to_cout [text ("Generating a wave file..." ++ newline)%string] in
  match CreateWaveFile sin r sample_rate file_length_sec bits_per_sample file_path with
  | (Returns _, t) =>
      (Returns 0, start :: t ++ [to_cout [text ("Finished." ++ newline)%string]])
  | (Throws e, t) => (Throws e, start :: t)
  | (Undefined, t) => (Undefined, start :: t)
  end.

End part_001.

(** ** A reader of the 44-byte header *)

Definition read_header (bytes : list Z) : option wave.WaveHeader :=
  if Nat.eqb (List.length bytes) 44 then
    Some {| wave.file_type_bloc_id := firstn 4 bytes;
            wave.file_size := wave.field 4 4 bytes;
            wave.file_format_id := firstn 4 (skipn 8 bytes);
            wave.format_bloc_id := firstn 4 (skipn 12 bytes);
            wave.bloc_size := wave.field 16 4 bytes;
            wave.audio_format := wave.field 20 2 bytes;
            wave.channel_count := wave.field 22 2 bytes;
            wave.sample_rate := wave.field 24 4 bytes;
            wave.bytes_per_sec := wave.field 28 4 bytes;
            wave.bytes_per_bloc := wave.field 32 2 bytes;
            wave.bits_per_sample := wave.field 34 2 bytes;
            wave.data_bloc_id := firstn 4 (skipn 36 bytes);
            wave.data_size := wave.field 40 4 bytes |}
  else None.

Definition fits (bits : Z) (z : Z) : Prop := 0 <= z < 2 ^ bits.

(** The members of [h] hold values of their types. *)
Definition well_formed (h : wave.WaveHeader) : Prop :=
  List.length (wave.file_type_bloc_id h) = 4%nat
  /\ List.length (wave.file_format_id h) = 4%nat
  /\ List.length (wave.format_bloc_id h) = 4%nat
  /\ List.length (wave.data_bloc_id h) = 4%nat
  /\ fits 32 (wave.file_size h) /\ fits 32 (wave.bloc_size h)
  /\ fits 16 (wave.audio_format h) /\ fits 16 (wave.channel_count h)
  /\ fits 32 (wave.sample_rate h) /\ fits 32 (wave.bytes_per_sec h)
  /\ fits 16 (wave.bytes_per_bloc h) /\ fits 16 (wave.bits_per_sample h)
  /\ fits 32 (wave.data_size h).

(** The traces [create_wave_file] can leave. *)
Inductive file_trace : list event -> Prop :=
| trace_untouched : file_trace []
| trace_not_opened : file_trace [ev_open "audio.wav" false]
| trace_header_failed hdr :
    List.length hdr = 44%nat ->
    file_trace [ev_open "audio.wav" true; ev_write hdr false; ev_close]
| trace_data_written hdr data ok :
    List.length hdr = 44%nat ->
    file_trace [ev_open "audio.wav" true; ev_write hdr true; ev_write data ok; ev_close].

(** An environment in which every operation succeeds or fails as the three
    flags say. *)
Definition environment_of (opens header_ok data_ok : bool) : environment :=
  {| can_open := fun _ => opens; header_write_ok := header_ok; data_write_ok := data_ok |}.

(** The file events among the outputs of [main]. *)
Definition file_events (outs : list output) : list event :=
  flat_map (fun o => match o with to_file e => [e] | _ => [] end) outs.

(** The conversions on the argument strings used in the examples below;
    on these strings [std::stoul] and [std::stod] give these values. *)
Definition stoul_examples (s : string) : option Z :=
  if String.eqb s "1000" then Some 1000
  else if String.eqb s "4294968296" then Some 4294968296
  else if String.eqb s "30000" then Some 30000
  else None.

Definition stod_examples (s : string) : option float :=
  if String.eqb s "0.0001220703125" then Some 0x1p-13%float
  else if String.eqb s "-1.5" then Some (-1.5)%float
  else None.

(** * Properties *)

(** ** Bytes and little-endian values *)

Lemma to_uint8_range z : 0 <= to_uint8 z <= 255.
Proof. unfold to_uint8. pose proof (Z.mod_pos_bound z (2 ^ 8)). lia. Qed.

Lemma land_255 z : Z.land z 255 = z mod 256.
Proof. change 255 with (Z.ones 8). rewrite Z.land_ones by lia. reflexivity. Qed.

Lemma to_uint8_land z : to_uint8 (Z.land z 255) = Z.land z 255.
Proof.
  rewrite land_255. unfold to_uint8. change (2 ^ 8) with 256.
  apply Z.mod_mod. lia.
Qed.

Lemma shiftr_8 z : Z.shiftr z 8 = z / 256.
Proof. rewrite Z.shiftr_div_pow2 by lia. reflexivity. Qed.

Lemma shiftr_16 z : Z.shiftr z 16 = z / 65536.
Proof. rewrite Z.shiftr_div_pow2 by lia. reflexivity. Qed.

Lemma le_bytes_length n z : List.length (le_bytes n z) = n.
Proof. revert z. induction n as [|n IH]; intros z; simpl; [|rewrite IH]; reflexivity. Qed.

Lemma le_value_le_bytes n z :
  le_value (le_bytes n z) = z mod 2 ^ (8 * Z.of_nat n).
Proof.
  revert z. induction n as [|n IH]; intros z.
  - simpl. rewrite Z.mod_1_r. reflexivity.
  - cbn [le_bytes le_value]. rewrite IH, shiftr_8.
    replace (8 * Z.of_nat (S n)) with (8 + 8 * Z.of_nat n) by lia.
    rewrite Z.pow_add_r by lia. change (2 ^ 8) with 256.
    unfold to_uint8. change (2 ^ 8) with 256.
    assert (Hp : 0 < 2 ^ (8 * Z.of_nat n)) by (apply Z.pow_pos_nonneg; lia).
    rewrite Z.rem_mul_r by lia. reflexivity.
  Qed.

Lemma le_bytes_are_bytes n z : Forall is_byte (le_bytes n z).
Proof.
  revert z. induction n as [|n IH]; intros z; simpl; constructor.
  - apply to_uint8_range.
  - apply IH.
Qed.

(** ** One sample *)

Lemma sample_bytes_eq v :
  sample_bytes v =
  [Z.land v 255; Z.land (Z.shiftr v 8) 255; Z.land (Z.shiftr v 16) 255].
Proof.
  unfold sample_bytes, push_sample. simpl app.
  rewrite !to_uint8_land. reflexivity.
Qed.

Lemma push_sample_app samples v :
  push_sample samples v = samples ++ sample_bytes v.
Proof.
  unfold sample_bytes, push_sample. rewrite <- !app_assoc. reflexivity.
Qed.

Lemma sample_bytes_value v : le_value (sample_bytes v) = v mod 2 ^ 24.
Proof.
  rewrite sample_bytes_eq. cbn [le_value].
  rewrite !land_255, shiftr_8, shiftr_16.
  change (2 ^ 24) with 16777216.
  replace (v / 65536) with (v / 256 / 256) by (rewrite Z.div_div by lia; reflexivity).
  pose proof (Z.div_mod v 256 ltac:(lia)).
  pose proof (Z.div_mod (v / 256) 256 ltac:(lia)).
  pose proof (Z.div_mod (v / 256 / 256) 256 ltac:(lia)).
  pose proof (Z.mod_pos_bound v 256 ltac:(lia)).
  pose proof (Z.mod_pos_bound (v / 256) 256 ltac:(lia)).
  pose proof (Z.mod_pos_bound (v / 256 / 256) 256 ltac:(lia)).
  apply Z.mod_unique_pos with (q := v / 256 / 256 / 256); lia.
Qed.

Lemma sample_bytes_are_bytes v : Forall is_byte (sample_bytes v).
Proof.
  unfold sample_bytes, push_sample. simpl app.
  repeat constructor; apply to_uint8_range.
Qed.

(** ** The sample loop *)

Section Loop.
Variable sin : float -> float.
Variable src : wavegen.sine_wave_generator.

Lemma sample_loop_collect n : forall sample_index samples,
  sample_loop sin src n sample_index samples =
  match collect sin src n sample_index with
  | Some vs => Returns (samples ++ flat_map sample_bytes vs)
  | None => Undefined
  end.
Proof.
  induction n as [|n IH]; intros sample_index samples.
  - simpl. rewrite app_nil_r. reflexivity.
  - cbn [sample_loop collect].
    destruct (wavegen.get_sample sin src sample_index) as [v|]; cbn [defined bind];
      [|reflexivity].
    rewrite IH, push_sample_app.
    destruct (collect sin src n (sample_index + 1)) as [vs|]; [|reflexivity].
    cbn [flat_map]. rewrite <- app_assoc. reflexivity.
Qed.

Lemma collect_length n : forall sample_index vs,
  collect sin src n sample_index = Some vs -> List.length vs = n.
Proof.
  induction n as [|n IH]; intros sample_index vs H; cbn [collect] in H.
  - injection H as <-. reflexivity.
  - destruct (wavegen.get_sample sin src sample_index) as [v|]; [|discriminate].
    destruct (collect sin src n (sample_index + 1)) as [ws|] eqn:E; [|discriminate].
    injection H as <-. simpl. f_equal. eapply IH, E.
Qed.

Lemma collect_nth n : forall sample_index vs i,
  collect sin src n sample_index = Some vs ->
  (i < n)%nat ->
  wavegen.get_sample sin src (sample_index + Z.of_nat i) = Some (nth i vs 0).
Proof.
  induction n as [|n IH]; intros sample_index vs i H Hi; [lia|].
  cbn [collect] in H.
  destruct (wavegen.get_sample sin src sample_index) as [v|] eqn:Ev; [|discriminate].
  destruct (collect sin src n (sample_index + 1)) as [ws|] eqn:E; [|discriminate].
  injection H as <-. destruct i as [|i].
  - rewrite Z.add_0_r. exact Ev.
  - cbn [nth]. replace (sample_index + Z.of_nat (S i)) with (sample_index + 1 + Z.of_nat i) by lia.
    apply IH; [exact E | lia].
Qed.

Lemma samples_defined_from_collect n : forall sample_index,
  samples_defined_from sin src n sample_index = true ->
  exists vs, collect sin src n sample_index = Some vs.
Proof.
  induction n as [|n IH]; intros sample_index H.
  - exists []. reflexivity.
  - cbn [samples_defined_from collect] in *.
    destruct (wavegen.get_sample sin src sample_index) as [v|]; [|discriminate].
    destruct (IH _ H) as [vs Hvs]. rewrite Hvs. eexists. reflexivity.
Qed.

Lemma samples_defined_collect n :
  samples_defined sin src n = true ->
  exists vs, collect sin src n 0 = Some vs.
Proof. apply samples_defined_from_collect. Qed.
End Loop.

Lemma flat_map_sample_bytes_length vs :
  List.length (flat_map sample_bytes vs) = (3 * List.length vs)%nat.
Proof.
  induction vs as [|v vs IH]; [reflexivity|].
  cbn [flat_map]. rewrite length_app, IH. cbn [sample_bytes push_sample app List.length]. lia.
Qed.

Lemma flat_map_sample_bytes_nth vs : forall i,
  (i < List.length vs)%nat ->
  firstn 3 (skipn (3 * i) (flat_map sample_bytes vs)) = sample_bytes (nth i vs 0).
Proof.
  induction vs as [|v vs IH]; intros i Hi; [simpl in Hi; lia|].
  destruct i as [|i].
  - reflexivity.
  - replace (3 * S i)%nat with (3 * i + 3)%nat by lia.
    cbn [flat_map nth]. rewrite <- skipn_skipn.
    change (skipn 3 (sample_bytes v ++ flat_map sample_bytes vs))
      with (flat_map sample_bytes vs).
    apply IH. simpl in Hi. lia.
Qed.

(** What [create_wave_data] returns, in terms of the sample values. *)
Lemma create_wave_data_collect sin amp f d :
  create_wave_data sin amp f d =
  match total_sample_count d with
  | Some n =>
      match collect sin (audio_source_of amp f) (Z.to_nat n) 0 with
      | Some vs => Returns (flat_map sample_bytes vs)
      | None => Undefined
      end
  | None => Undefined
  end.
Proof.
  unfold create_wave_data.
  destruct (total_sample_count d) as [n|]; cbn [defined bind]; [|reflexivity].
  rewrite sample_loop_collect. reflexivity.
Qed.

Lemma total_sample_count_range d n :
  total_sample_count d = Some n -> 0 <= n <= UINT32_MAX.
Proof.
  unfold total_sample_count, Double.to_uint32, Double.to_integer.
  destruct (Double.truncate _) as [z|]; [|discriminate].
  destruct (0 <=? z) eqn:E1; destruct (z <=? UINT32_MAX) eqn:E2; cbn [andb];
    try discriminate.
  intros H. injection H as <-. lia.
Qed.

(** ** The header *)

Lemma encoded_header_length z : List.length (encoded_header z) = 44%nat.
Proof. reflexivity. Qed.

Lemma uninitialised_array_length N mem :
  List.length (uninitialised_array N mem) = N.
Proof. unfold uninitialised_array. rewrite length_map, length_seq. reflexivity. Qed.

Lemma memcpy_whole dst src n :
  List.length src = n -> List.length dst = n -> memcpy dst src n = src.
Proof.
  intros Hs Hd. unfold memcpy.
  rewrite firstn_all2 by lia. rewrite skipn_all2 by lia. apply app_nil_r.
Qed.

(** The result of [create_wave_header] does not depend on the storage the
    local array starts from. *)
Lemma create_wave_header_eq mem d :
  create_wave_header mem d =
  match computed_data_size d with
  | Some z =>
      if UINT32_MAX <? z then Throws (overflow_error overflow_message)
      else Returns (encoded_header z)
  | None => Undefined
  end.
Proof.
  unfold create_wave_header.
  destruct (computed_data_size d) as [z|]; cbn [defined bind]; [|reflexivity].
  destruct (UINT32_MAX <? z); [reflexivity|].
  rewrite memcpy_whole; [reflexivity | reflexivity | apply uninitialised_array_length].
Qed.

Lemma computed_data_size_range d z :
  computed_data_size d = Some z -> 0 <= z <= UINT64_MAX.
Proof.
  unfold computed_data_size, Double.to_uint64, Double.to_integer.
  destruct (Double.truncate _) as [t|]; [|discriminate].
  destruct (0 <=? t) eqn:E1; destruct (t <=? UINT64_MAX) eqn:E2; cbn [andb];
    try discriminate.
  intros H. injection H as <-. lia.
Qed.

Lemma computed_data_size_truncate d z :
  computed_data_size d = Some z <->
  Double.truncate (d * Double.of_uint32 144000)%float = Some z /\ 0 <= z <= UINT64_MAX.
Proof.
  unfold computed_data_size, Double.to_uint64, Double.to_integer.
  change (wave.bytes_per_sec header_format) with 144000.
  split.
  - destruct (Double.truncate _) as [t|]; [|discriminate].
    destruct ((0 <=? t) && (t <=? UINT64_MAX)) eqn:E; [|discriminate].
    intros H. injection H as <-. split; [reflexivity|].
    apply andb_true_iff in E. destruct E as [E1 E2].
    apply Z.leb_le in E1. apply Z.leb_le in E2. lia.
  - intros [H [H0 H1]]. rewrite H.
    apply Z.leb_le in H0. apply Z.leb_le in H1.
    rewrite H0, H1. reflexivity.
Qed.

Lemma to_uint32_small z : 0 <= z <= UINT32_MAX -> to_uint32 z = z.
Proof. unfold to_uint32, UINT32_MAX. intros H. apply Z.mod_small. lia. Qed.

Lemma encoded_header_fields z :
  wave.field wave.off_bytes_per_sec 4 (encoded_header z) = 144000
  /\ wave.field wave.off_bytes_per_bloc 2 (encoded_header z) = 3
  /\ wave.field wave.off_sample_rate 4 (encoded_header z) = 48000
  /\ wave.field wave.off_channel_count 2 (encoded_header z) = 1
  /\ wave.field wave.off_bits_per_sample 2 (encoded_header z) = 24
  /\ wave.field wave.off_data_size 4 (encoded_header z) = to_uint32 z
  /\ wave.field wave.off_file_size 4 (encoded_header z) = to_uint32 (44 + to_uint32 z - 8).
Proof.
  repeat split; try reflexivity.
  - change (wave.field wave.off_data_size 4 (encoded_header z))
      with (le_value (le_bytes 4 (to_uint32 z))).
    rewrite le_value_le_bytes. change (2 ^ (8 * Z.of_nat 4)) with (2 ^ 32).
    unfold to_uint32. apply Z.mod_mod. lia.
  - change (wave.field wave.off_file_size 4 (encoded_header z))
      with (le_value (le_bytes 4 (to_uint32 (44 + to_uint32 z - 8)))).
    rewrite le_value_le_bytes. change (2 ^ (8 * Z.of_nat 4)) with (2 ^ 32).
    unfold to_uint32. apply Z.mod_mod. lia.
Qed.

Lemma encoded_header_bytes z : Forall is_byte (encoded_header z).
Proof.
  unfold encoded_header.
  repeat (apply Forall_app; split);
    try apply le_bytes_are_bytes;
    repeat constructor; unfold is_byte; simpl; lia.
Qed.

(** ** Signs of products *)

Lemma binary_round_aux_sign prec emax sx mx ex lx :
  match binary_round_aux prec emax sx mx ex lx with
  | S754_zero s => s = sx
  | S754_finite s _ _ => s = sx
  | S754_infinity s => s = sx
  | S754_nan => True
  end.
Proof.
  unfold binary_round_aux.
  destruct (shr_fexp prec emax mx ex lx) as [mrs' e'].
  destruct (shr_fexp prec emax _ e' loc_Exact) as [mrs'' e''].
  destruct (shr_m mrs'') as [|m|m]; [reflexivity| |exact I].
  destruct (e'' <=? emax - prec); reflexivity.
Qed.

(** A duration that is not positive gives a product that is not positive. *)
Lemma truncate_product_nonpositive d c m e z :
  (d <=? 0)%float = true ->
  Prim2SF c = S754_finite false m e ->
  Double.truncate (d * c)%float = Some z ->
  z <= 0.
Proof.
  intros Hd Hc Ht. unfold Double.truncate in Ht.
  rewrite mul_spec, Hc in Ht. rewrite leb_spec in Hd.
  change (Prim2SF 0) with (S754_zero false) in Hd.
  destruct (Prim2SF d) as [s|s| |s md ed]; cbn in Hd, Ht.
  - injection Ht as <-. lia.
  - discriminate.
  - discriminate.
  - destruct s; [|discriminate]. cbn [xorb] in Ht.
    pose proof (binary_round_aux_sign prec emax true (Z.pos (md * m)) (ed + e) loc_Exact) as Hs.
    unfold SF64mul, SFmul in Ht.
    destruct (binary_round_aux prec emax true (Z.pos (md * m)) (ed + e) loc_Exact)
      as [s'|s'| |s' m' e']; try discriminate.
    + injection Ht as <-. lia.
    + subst s'. injection Ht as <-. cbn [cond_Zopp].
      pose proof (Z.shiftl_nonneg (Z.pos m') e'). lia.
Qed.

(** ** Header fields on every input *)

(** Whenever [create_wave_header] returns, the header is 44 bytes long, the
    byte rate is 144000, the block align is 3, the data size field is the
    computed data size, and the file size field is 44 + data_size - 8
    reduced modulo 2^32: the sum itself as long as data_size is at most
    2^32 - 37. *)
Lemma header_fields mem d header :
  create_wave_header mem d = Returns header ->
  List.length header = 44%nat
  /\ Forall is_byte header
  /\ wave.field wave.off_bytes_per_sec 4 header = k_sample_rate * 1 * (k_bits_per_sample / 8)
  /\ wave.field wave.off_bytes_per_bloc 2 header = 1 * (k_bits_per_sample / 8)
  /\ exists z,
       computed_data_size d = Some z /\ 0 <= z <= UINT32_MAX
       /\ wave.field wave.off_data_size 4 header = z
       /\ wave.field wave.off_file_size 4 header = (44 + z - 8) mod 2 ^ 32
       /\ (z <= UINT32_MAX - 36 -> wave.field wave.off_file_size 4 header = 44 + z - 8).
Proof.
  rewrite create_wave_header_eq.
  destruct (computed_data_size d) as [z|] eqn:Ez; [|discriminate].
  destruct (UINT32_MAX <? z) eqn:Eo; [discriminate|].
  intros H. injection H as <-.
  apply Z.ltb_ge in Eo. pose proof (computed_data_size_range _ _ Ez) as Hz.
  destruct (encoded_header_fields z) as (Hbr & Hba & _ & _ & _ & Hds & Hfs).
  rewrite (to_uint32_small z) in Hds, Hfs by lia.
  change (to_uint32 (44 + z - 8)) with ((44 + z - 8) mod 2 ^ 32) in Hfs.
  unfold UINT32_MAX in *.
  split; [reflexivity|]. split; [apply encoded_header_bytes|].
  split; [exact Hbr|]. split; [exact Hba|].
  exists z. split; [reflexivity|]. split; [lia|]. split; [exact Hds|].
  split.
  - exact Hfs.
  - intros Hsmall. rewrite Hfs. apply Z.mod_small. lia.
Qed.

(** ** The steps of [create_wave_file] *)

Section Steps.
Variable sin : float -> float.
Variable k_amplitude : Z.

Lemma create_wave_file_bad_length r f d :
  (d <=? 0)%float = true ->
  create_wave_file sin k_amplitude r f d =
  (Throws (invalid_argument length_message), []).
Proof. intros H. unfold create_wave_file. rewrite H. reflexivity. Qed.

Lemma create_wave_file_bad_frequency r f d :
  (d <=? 0)%float = false -> 24000 < f ->
  create_wave_file sin k_amplitude r f d =
  (Throws (invalid_argument frequency_message), []).
Proof.
  intros H Hf. unfold create_wave_file. rewrite H.
  change (k_sample_rate / 2) with 24000.
  apply Z.ltb_lt in Hf. rewrite Hf. reflexivity.
Qed.

Lemma create_wave_file_encodes r f d :
  (d <=? 0)%float = false -> f <= 24000 ->
  create_wave_file sin k_amplitude r f d =
  (header <~ lift (create_wave_header (run_storage r) d) ;;
   samples <~ lift (create_wave_data sin k_amplitude f d) ;;
   write_to_file (run_env r) header (to_uint32 (Z.of_nat (List.length header)))
     samples (to_uint32 (Z.of_nat (List.length samples))) "audio.wav").
Proof.
  intros H Hf. unfold create_wave_file. rewrite H.
  change (k_sample_rate / 2) with 24000.
  apply Z.ltb_ge in Hf. rewrite Hf. reflexivity.
Qed.

Lemma create_wave_file_writes r f d header samples :
  (d <=? 0)%float = false -> f <= 24000 ->
  create_wave_header (run_storage r) d = Returns header ->
  create_wave_data sin k_amplitude f d = Returns samples ->
  create_wave_file sin k_amplitude r f d =
  write_to_file (run_env r) header (to_uint32 (Z.of_nat (List.length header)))
    samples (to_uint32 (Z.of_nat (List.length samples))) "audio.wav".
Proof.
  intros H Hf Hh Hs. rewrite create_wave_file_encodes by assumption.
  rewrite Hh, Hs. unfold lift, then_do.
  destruct (write_to_file _ _ _ _ _ _) as [o t]. reflexivity.
Qed.
End Steps.

(** ** C1 *)

(** C1 (the code departs from the claim). The claim: for every valid
    duration the header's data_size equals the number of payload bytes,
    3 x total_sample_count. The two are truncated separately, so they
    differ: for file_length_sec = 2^-15 (about 30.5 microseconds), which
    passes validation, 144000 x 2^-15 = 4.39 gives data_size = 4 while
    48000 x 2^-15 = 1.46 gives one sample, three payload bytes; the file
    written declares 4 data bytes and carries 3. *)
Theorem C1_data_size_differs_from_payload_length :
  forall mem env,
  exists header payload,
    (0x1p-15 <=? 0)%float = false
    /\ create_wave_header mem 0x1p-15 = Returns header
    /\ create_wave_data wavegen.sin_ref k_amplitude_current 1000 0x1p-15 = Returns payload
    /\ wave.field wave.off_data_size 4 header = 4
    /\ total_sample_count 0x1p-15 = Some 1
    /\ Z.of_nat (List.length payload) = 3
    /\ create_wave_file wavegen.sin_ref k_amplitude_current
         {| run_storage := mem; run_env := env |} 1000 0x1p-15
       = write_to_file env header 44 payload 3 "audio.wav".
Proof.
  intros mem env. eexists. eexists.
  split; [reflexivity|].
  split; [rewrite create_wave_header_eq; vm_compute; reflexivity|].
  split; [vm_compute; reflexivity|].
  split; [reflexivity|].
  split; [reflexivity|].
  split; [reflexivity|].
  apply (create_wave_file_writes wavegen.sin_ref k_amplitude_current
           {| run_storage := mem; run_env := env |} 1000 0x1p-15).
  - reflexivity.
  - lia.
  - cbn [run_storage]. rewrite create_wave_header_eq. vm_compute. reflexivity.
  - vm_compute. reflexivity.
Qed.

(** ** C3 *)

(** C3 (the code departs from the claim). The claim: on every valid input
    the header has byte_rate = 144000, block_align = 3 and
    file_size_field = 44 + data_size - 8, on 44 bytes. The overflow check
    admits every data_size up to 2^32 - 1, but the sum
    [k_header_size + hdr.data_size - 8] is computed on 32 bits and wraps
    once data_size exceeds 2^32 - 37. For file_length_sec = 29826.1617 the
    header is accepted with data_size = 4294967284 and its file size field
    is 24, not 4294967320; byte_rate, block_align and the length are as
    claimed. *)
Theorem C3_file_size_field_wraps :
  forall mem,
  exists header,
    (0x1.d208a594af4f1p+14 <=? 0)%float = false
    /\ create_wave_header mem 0x1.d208a594af4f1p+14 = Returns header
    /\ List.length header = 44%nat
    /\ wave.field wave.off_bytes_per_sec 4 header = 144000
    /\ wave.field wave.off_bytes_per_bloc 2 header = 3
    /\ wave.field wave.off_data_size 4 header = 4294967284
    /\ wave.field wave.off_file_size 4 header = 24
    /\ 44 + 4294967284 - 8 = 4294967320.
Proof.
  intros mem. eexists.
  split; [reflexivity|].
  split; [rewrite create_wave_header_eq; vm_compute; reflexivity|].
  repeat split.
Qed.

(** ** C2 *)

(** C2 (counterexample to the claim as stated). With wave_frequency = 30000
    and file_length_sec = 65536 the computed data size is 9437184000, above
    2^32 - 1, yet [create_wave_file] fails with the invalid-argument error
    of the frequency check, which comes first, not with an overflow
    error. *)
Lemma C2_frequency_check_precedes_overflow :
  Double.truncate (65536 * Double.of_uint32 144000)%float = Some 9437184000
  /\ UINT32_MAX < 9437184000
  /\ create_wave_file wavegen.sin_ref k_amplitude_current quiet_run 30000 65536
     = (Throws (invalid_argument frequency_message), [])
  /\ fst (create_wave_file wavegen.sin_ref k_amplitude_current quiet_run 30000 65536)
     <> Throws (overflow_error overflow_message).
Proof.
  split; [reflexivity|]. split; [reflexivity|]. split; [reflexivity|].
  vm_compute. discriminate.
Qed.

(** Beyond the range of [uint64_t] the conversion of the product is
    undefined, and so is the call: for 2^70 seconds, for an infinite and for
    a NaN duration the model has no overflow error to report. *)
Lemma create_wave_header_undefined_beyond_uint64 mem :
  Double.truncate (0x1p70 * Double.of_uint32 144000)%float
  = Some 170005193383307227693056000
  /\ create_wave_header mem 0x1p70 = Undefined
  /\ create_wave_header mem infinity = Undefined
  /\ create_wave_header mem nan = Undefined.
Proof.
  split; [vm_compute; reflexivity|].
  rewrite !create_wave_header_eq. repeat split.
Qed.

(** C2 (amended). When the frequency passes validation and the computed
    data size (duration x 144000, rounded toward zero) exceeds 2^32 - 1 and
    is at most 2^64 - 1, [create_wave_file] fails with the overflow error
    and its trace is empty: no file is opened or written. When the data
    size is at most 2^32 - 1, whatever the frequency, the outcome is not an
    overflow error. *)
Theorem C2_overflow_error :
  forall sin amp r f d z,
    Double.truncate (d * Double.of_uint32 144000)%float = Some z ->
    (f <= 24000 -> UINT32_MAX < z <= UINT64_MAX ->
       create_wave_file sin amp r f d = (Throws (overflow_error overflow_message), []))
    /\ (0 <= z <= UINT32_MAX ->
          forall what, fst (create_wave_file sin amp r f d) <> Throws (overflow_error what)).
Proof.
  intros sin amp r f d z Ht. split.
  - intros Hf Hz.
    assert (Hd : (d <=? 0)%float = false).
    { destruct (d <=? 0)%float eqn:E; [|reflexivity].
      assert (Hc : Prim2SF (Double.of_uint32 144000)
                   = S754_finite false 4947802324992000 (-35)) by (vm_compute; reflexivity).
      pose proof (truncate_product_nonpositive _ _ _ _ _ E Hc Ht).
      unfold UINT32_MAX in Hz. lia. }
    rewrite create_wave_file_encodes by assumption.
    rewrite create_wave_header_eq.
    assert (Hc : computed_data_size d = Some z).
    { apply computed_data_size_truncate. unfold UINT32_MAX in Hz. split; [exact Ht | lia]. }
    rewrite Hc. destruct Hz as [Hz _]. apply Z.ltb_lt in Hz. rewrite Hz. reflexivity.
  - intros Hz what.
    unfold create_wave_file.
    destruct (d <=? 0)%float; [cbn; discriminate|].
    destruct (k_sample_rate / 2 <? f); [cbn; discriminate|].
    rewrite create_wave_header_eq.
    assert (Hc : computed_data_size d = Some z).
    { apply computed_data_size_truncate. unfold UINT32_MAX, UINT64_MAX in *.
      split; [exact Ht | lia]. }
    rewrite Hc. assert (Ho : (UINT32_MAX <? z) = false) by (apply Z.ltb_ge; lia).
    rewrite Ho. unfold lift at 1. cbn [then_do].
    destruct (create_wave_data sin amp f d) as [samples| e |] eqn:Es.
    + unfold lift. cbn [then_do]. unfold write_to_file.
      destruct (can_open (run_env r) "audio.wav"); cbn [negb]; [|cbn; discriminate].
      destruct (header_write_ok (run_env r)); cbn [negb]; [|cbn; discriminate].
      destruct (data_write_ok (run_env r)); cbn; discriminate.
    + exfalso. rewrite create_wave_data_collect in Es.
      destruct (total_sample_count d); [|discriminate].
      destruct (collect _ _ _ _); discriminate.
    + cbn. discriminate.
Qed.

Lemma C2_overflow_error_witness :
  (Double.truncate (65536 * Double.of_uint32 144000)%float = Some 9437184000
   /\ create_wave_file wavegen.sin_ref k_amplitude_current quiet_run 1000 65536
      = (Throws (overflow_error overflow_message), []))
  /\ (Double.truncate (1 * Double.of_uint32 144000)%float = Some 144000
      /\ fst (create_wave_file wavegen.sin_ref k_amplitude_current quiet_run 1000 1)
         <> Throws (overflow_error overflow_message)).
Proof.
  split; (split; [reflexivity|]).
  - apply (proj1 (C2_overflow_error wavegen.sin_ref k_amplitude_current quiet_run
                    1000 65536 9437184000 eq_refl)).
    + lia.
    + unfold UINT32_MAX, UINT64_MAX. lia.
  - apply (proj2 (C2_overflow_error wavegen.sin_ref k_amplitude_current quiet_run
                    1000 1 144000 eq_refl)).
    unfold UINT32_MAX. lia.
Defined.

(** ** C4 *)

(** C4 (counterexample to the claim as stated). For
    file_length_sec = 2^-9 the product 48000 x 2^-9 is 93.75: nearest-integer
    rounding gives 94 samples, the payload holds 93. *)
Lemma C4_payload_is_truncated_not_rounded :
  exists payload,
    (0x1p-9 <=? 0)%float = false
    /\ spec_round_total_samples 0x1p-9 = Some 94
    /\ create_wave_data wavegen.sin_ref k_amplitude_current 1000 0x1p-9 = Returns payload
    /\ List.length payload = (3 * 93)%nat
    /\ List.length payload <> (3 * 94)%nat.
Proof.
  eexists. split; [reflexivity|]. split; [reflexivity|].
  split; [vm_compute; reflexivity|].
  split; [reflexivity | discriminate].
Qed.

(** The payload in terms of the sample values, when every sample below the
    count is defined. *)
Lemma payload_of_defined_samples sin amp f d n :
  Double.truncate (Double.of_uint32 k_sample_rate * d)%float = Some n ->
  0 <= n <= UINT32_MAX ->
  samples_defined sin (audio_source_of amp f) (Z.to_nat n) = true ->
  exists values,
    create_wave_data sin amp f d = Returns (flat_map sample_bytes values)
    /\ Z.of_nat (List.length values) = n
    /\ forall i, 0 <= i < n ->
         wavegen.get_sample sin (audio_source_of amp f) i
         = Some (nth (Z.to_nat i) values 0).
Proof.
  intros Ht Hn Hdef.
  destruct (samples_defined_collect _ _ _ Hdef) as [values Hv].
  exists values.
  assert (Hc : total_sample_count d = Some n).
  { unfold total_sample_count, Double.to_uint32, Double.to_integer. rewrite Ht.
    destruct Hn as [H0 H1]. apply Z.leb_le in H0. apply Z.leb_le in H1.
    rewrite H0, H1. reflexivity. }
  pose proof (collect_length _ _ _ _ _ Hv) as Hlen.
  split; [rewrite create_wave_data_collect, Hc, Hv; reflexivity|].
  split; [lia|].
  intros i Hi.
  pose proof (collect_nth _ _ _ _ _ (Z.to_nat i) Hv ltac:(lia)) as Hnth.
  rewrite Z2Nat.id, Z.add_0_l in Hnth by lia. exact Hnth.
Qed.

(** C4 (amended). When the product k_sample_rate x file_length_sec,
    truncated toward zero, is a value n of [uint32_t], and the sample
    source yields a value at each index below n, [create_wave_data] returns
    the payload of exactly n samples, 3 n bytes: the encodings, in order,
    of the values the source gives at the indices 0, ..., n - 1. *)
Theorem C4_sample_count :
  forall sin amp f d n,
    Double.truncate (Double.of_uint32 k_sample_rate * d)%float = Some n ->
    0 <= n <= UINT32_MAX ->
    samples_defined sin (audio_source_of amp f) (Z.to_nat n) = true ->
    exists values,
      create_wave_data sin amp f d = Returns (flat_map sample_bytes values)
      /\ Z.of_nat (List.length values) = n
      /\ Z.of_nat (List.length (flat_map sample_bytes values)) = 3 * n
      /\ forall i, 0 <= i < n ->
           wavegen.get_sample sin (audio_source_of amp f) i
           = Some (nth (Z.to_nat i) values 0).
Proof.
  intros sin amp f d n Ht Hn Hdef.
  destruct (payload_of_defined_samples sin amp f d n Ht Hn Hdef) as (values & Hp & Hlen & Hnth).
  exists values. split; [exact Hp|]. split; [exact Hlen|].
  split; [rewrite flat_map_sample_bytes_length; lia | exact Hnth].
Qed.

Lemma C4_sample_count_witness :
  exists values,
    create_wave_data wavegen.sin_ref k_amplitude_current 1000 0x1p-9
    = Returns (flat_map sample_bytes values)
    /\ Z.of_nat (List.length values) = 93
    /\ Z.of_nat (List.length (flat_map sample_bytes values)) = 3 * 93
    /\ forall i, 0 <= i < 93 ->
         wavegen.get_sample wavegen.sin_ref (audio_source_of k_amplitude_current 1000) i
         = Some (nth (Z.to_nat i) values 0).
Proof.
  apply (C4_sample_count wavegen.sin_ref k_amplitude_current 1000 0x1p-9 93).
  - reflexivity.
  - unfold UINT32_MAX. lia.
  - vm_compute. reflexivity.
Defined.

(** ** C5 *)

(** C5. For every sample value v the source produces at an index i below
    the sample count, the three payload bytes at offset 3 i are v & 0xFF,
    (v >> 8) & 0xFF, (v >> 16) & 0xFF in this order; read as a
    little-endian number they are v modulo 2^24, the low 24 bits of v. This
    is not saturation: 2^23 is encoded as 00 00 80 while the clamped value
    2^23 - 1 is encoded as FF FF 7F. *)
Theorem C5_sample_encoding :
  forall sin amp f d payload n i v,
    create_wave_data sin amp f d = Returns payload ->
    total_sample_count d = Some n ->
    0 <= i < n ->
    wavegen.get_sample sin (audio_source_of amp f) i = Some v ->
    firstn 3 (skipn (3 * Z.to_nat i) payload)
    = [Z.land v 255; Z.land (Z.shiftr v 8) 255; Z.land (Z.shiftr v 16) 255]
    /\ Forall is_byte (firstn 3 (skipn (3 * Z.to_nat i) payload))
    /\ le_value (firstn 3 (skipn (3 * Z.to_nat i) payload)) = v mod 2 ^ 24
    /\ sample_bytes (2 ^ 23) = [0; 0; 128]
    /\ sample_bytes (clamp_s24 (2 ^ 23)) = [255; 255; 127].
Proof.
  intros sin amp f d payload n i v Hp Hn Hi Hv.
  rewrite create_wave_data_collect, Hn in Hp.
  destruct (collect sin (audio_source_of amp f) (Z.to_nat n) 0) as [values|] eqn:Ec;
    [|discriminate].
  injection Hp as <-.
  pose proof (collect_length _ _ _ _ _ Ec) as Hlen.
  pose proof (collect_nth _ _ _ _ _ (Z.to_nat i) Ec ltac:(lia)) as Hnth.
  rewrite Z2Nat.id, Z.add_0_l, Hv in Hnth by lia. injection Hnth as Hnth.
  rewrite flat_map_sample_bytes_nth by lia. rewrite <- Hnth.
  split; [apply sample_bytes_eq|].
  split; [apply sample_bytes_are_bytes|].
  split; [apply sample_bytes_value|].
  split; reflexivity.
Qed.

Lemma C5_sample_encoding_witness :
  firstn 3 (skipn (3 * Z.to_nat 3)
              [0; 0; 0; 9; 192; 59; 91; 122; 118; 182; 45; 175; 191; 225; 228])
  = [Z.land 11480502 255; Z.land (Z.shiftr 11480502 8) 255;
     Z.land (Z.shiftr 11480502 16) 255].
Proof.
  refine (proj1 (C5_sample_encoding wavegen.sin_ref k_amplitude_current 1000
                   0x1p-13 _ 5 3 11480502 _ _ _ _)).
  - vm_compute. reflexivity.
  - reflexivity.
  - lia.
  - vm_compute. reflexivity.
Defined.

(** ** C10 *)

(** C10 (counterexample to the claim as stated). The claim ends with: the
    round trip holds exactly when |v| < 2^23. At v = -2^23 the round trip
    holds although |v| = 2^23. *)
Lemma C10_round_trip_at_minimum :
  decode_s24le (sample_bytes (- 2 ^ 23)) = Some (- 2 ^ 23)
  /\ ~ (Z.abs (- 2 ^ 23) < 2 ^ 23).
Proof. split; [reflexivity | vm_compute; discriminate]. Qed.

(** C10 (amended). For every 32-bit signed value v, decoding the three
    bytes the encoder appends as a little-endian 24-bit two's-complement
    integer yields the representative of v modulo 2^24 in
    [-2^23, 2^23 - 1]; the result is v again exactly when
    -2^23 <= v <= 2^23 - 1. *)
Theorem C10_round_trip :
  forall v,
    INT32_MIN <= v <= INT32_MAX ->
    decode_s24le (sample_bytes v) = Some ((v + 2 ^ 23) mod 2 ^ 24 - 2 ^ 23)
    /\ (decode_s24le (sample_bytes v) = Some v <-> - 2 ^ 23 <= v <= 2 ^ 23 - 1).
Proof.
  intros v _.
  assert (Hd : decode_s24le (sample_bytes v)
               = Some (if v mod 2 ^ 24 <? 2 ^ 23 then v mod 2 ^ 24 else v mod 2 ^ 24 - 2 ^ 24)).
  { pose proof (sample_bytes_value v) as Hval. rewrite sample_bytes_eq in *.
    cbn [le_value] in Hval. cbn [decode_s24le].
    replace (Z.land v 255 + 256 * Z.land (Z.shiftr v 8) 255
             + 65536 * Z.land (Z.shiftr v 16) 255) with (v mod 2 ^ 24) by lia.
    reflexivity. }
  rewrite Hd. change (2 ^ 24) with 16777216. change (2 ^ 23) with 8388608.
  pose proof (Z.div_mod v 16777216 ltac:(lia)) as H1.
  pose proof (Z.mod_pos_bound v 16777216 ltac:(lia)) as H2.
  pose proof (Z.div_mod (v + 8388608) 16777216 ltac:(lia)) as H3.
  pose proof (Z.mod_pos_bound (v + 8388608) 16777216 ltac:(lia)) as H4.
  destruct (v mod 16777216 <? 8388608) eqn:E;
    [apply Z.ltb_lt in E | apply Z.ltb_ge in E].
  - split; [f_equal; lia|]. split; [intros H; injection H as H; lia|].
    intros H. f_equal. lia.
  - split; [f_equal; lia|]. split; [intros H; injection H as H; lia|].
    intros H. f_equal. lia.
Qed.

Lemma C10_round_trip_witness :
  (decode_s24le (sample_bytes 30000000) = Some ((30000000 + 2 ^ 23) mod 2 ^ 24 - 2 ^ 23)
   /\ (decode_s24le (sample_bytes 30000000) = Some 30000000
       <-> - 2 ^ 23 <= 30000000 <= 2 ^ 23 - 1))
  /\ decode_s24le (sample_bytes (-300000)) = Some (-300000).
Proof.
  split.
  - apply (C10_round_trip 30000000). unfold INT32_MIN, INT32_MAX. lia.
  - apply (C10_round_trip (-300000)); unfold INT32_MIN, INT32_MAX; lia.
Defined.

(** ** What the encoder can throw *)

Lemma create_wave_header_throws mem d e :
  create_wave_header mem d = Throws e ->
  e = overflow_error overflow_message
  /\ exists z, computed_data_size d = Some z /\ UINT32_MAX < z.
Proof.
  rewrite create_wave_header_eq.
  destruct (computed_data_size d) as [z|]; [|discriminate].
  destruct (UINT32_MAX <? z) eqn:E; [|discriminate].
  intros H. injection H as <-. split; [reflexivity|].
  exists z. split; [reflexivity | apply Z.ltb_lt, E].
Qed.

Lemma create_wave_data_never_throws sin amp f d e :
  create_wave_data sin amp f d <> Throws e.
Proof.
  rewrite create_wave_data_collect.
  destruct (total_sample_count d); [|discriminate].
  destruct (collect _ _ _ _); discriminate.
Qed.

Lemma write_to_file_throws env hdr hs data ds path e :
  fst (write_to_file env hdr hs data ds path) = Throws e ->
  exists what, e = ios_failure what.
Proof.
  unfold write_to_file.
  destruct (can_open env path); cbn [negb].
  - destruct (header_write_ok env); cbn [negb].
    + destruct (data_write_ok env); cbn [negb fst]; intros H.
      * discriminate.
      * injection H as <-. eexists. reflexivity.
    + cbn [fst]. intros H. injection H as <-. eexists. reflexivity.
  - cbn [fst]. intros H. injection H as <-. eexists. reflexivity.
Qed.

(** Past the two argument checks, [create_wave_file] throws only what the
    encoder or the file output throws. *)
Lemma create_wave_file_throws_after_checks sin amp r f d e :
  (d <=? 0)%float = false -> f <= 24000 ->
  fst (create_wave_file sin amp r f d) = Throws e ->
  e = overflow_error overflow_message \/ exists what, e = ios_failure what.
Proof.
  intros Hd Hf. rewrite create_wave_file_encodes by assumption.
  destruct (create_wave_header (run_storage r) d) as [header|e'|] eqn:Eh;
    unfold lift at 1; cbn [then_do].
  - destruct (create_wave_data sin amp f d) as [samples|e'|] eqn:Es;
      unfold lift; cbn [then_do].
    + destruct (write_to_file _ _ _ _ _ _) as [o t] eqn:Ew. cbn [fst].
      intros ->. right.
      apply (write_to_file_throws (run_env r) header
               (to_uint32 (Z.of_nat (List.length header))) samples
               (to_uint32 (Z.of_nat (List.length samples))) "audio.wav").
      rewrite Ew. reflexivity.
    + exfalso. exact (create_wave_data_never_throws _ _ _ _ _ Es).
    + cbn [fst]. discriminate.
  - cbn [fst]. intros H. injection H as <-. left.
    apply (create_wave_header_throws _ _ _ Eh).
  - cbn [fst]. discriminate.
Qed.

(** ** C6 *)

(** C6. For every frequency above 24000 = k_sample_rate / 2,
    [create_wave_file] fails with an invalid-argument error and an empty
    trace, whatever the duration, the sine, the amplitude and the
    environment: nothing is encoded and no file is touched. For a
    frequency of at most 24000 the outcome is never the invalid-argument
    error of the frequency check. *)
Theorem C6_frequency_validation :
  forall sin amp r f d,
    (24000 < f ->
       exists what,
         create_wave_file sin amp r f d = (Throws (invalid_argument what), []))
    /\ (f <= 24000 ->
          fst (create_wave_file sin amp r f d)
          <> Throws (invalid_argument frequency_message)).
Proof.
  intros sin amp r f d. split.
  - intros Hf. destruct (d <=? 0)%float eqn:Ed.
    + exists length_message. apply create_wave_file_bad_length, Ed.
    + exists frequency_message. apply create_wave_file_bad_frequency; assumption.
  - intros Hf. destruct (d <=? 0)%float eqn:Ed.
    + rewrite create_wave_file_bad_length by assumption. cbn [fst].
      intros H. injection H as H. discriminate H.
    + intros H.
      destruct (create_wave_file_throws_after_checks _ _ _ _ _ _ Ed Hf H) as [E|[what E]];
        discriminate E.
Qed.

Lemma C6_frequency_validation_witness :
  (exists what,
     create_wave_file wavegen.sin_ref k_amplitude_current quiet_run 24001 1
     = (Throws (invalid_argument what), []))
  /\ fst (create_wave_file wavegen.sin_ref k_amplitude_current quiet_run 24000 0x1p-13)
     <> Throws (invalid_argument frequency_message).
Proof.
  split.
  - apply (proj1 (C6_frequency_validation wavegen.sin_ref k_amplitude_current
                    quiet_run 24001 1)). lia.
  - apply (proj2 (C6_frequency_validation wavegen.sin_ref k_amplitude_current
                    quiet_run 24000 0x1p-13)). lia.
Defined.

(** ** C7 *)

(** C7. For every duration that is less than or equal to 0,
    [create_wave_file] fails with the invalid-argument error of the length
    check and an empty trace. The encoder does not look at the sign of the
    duration: all [create_wave_header] can throw is the overflow error, for
    a data size above 2^32 - 1; [create_wave_data] throws nothing; and on
    the duration 0 both return, a header with data size 0 and an empty
    payload. *)
Theorem C7_length_validation :
  forall sin amp r f d mem,
    ((d <=? 0)%float = true ->
       create_wave_file sin amp r f d = (Throws (invalid_argument length_message), []))
    /\ (forall e, create_wave_header mem d = Throws e ->
          e = overflow_error overflow_message
          /\ exists z, computed_data_size d = Some z /\ UINT32_MAX < z)
    /\ (forall e, create_wave_data sin amp f d <> Throws e)
    /\ create_wave_header mem 0 = Returns (encoded_header 0)
    /\ create_wave_data sin amp f 0 = Returns [].
Proof.
  intros sin amp r f d mem.
  split; [apply create_wave_file_bad_length|].
  split; [intros e; apply create_wave_header_throws|].
  split; [intros e; apply create_wave_data_never_throws|].
  split; [rewrite create_wave_header_eq; reflexivity | reflexivity].
Qed.

Lemma C7_length_validation_witness :
  create_wave_file wavegen.sin_ref k_amplitude_current quiet_run 1000 (-1.5)
  = (Throws (invalid_argument length_message), [])
  /\ create_wave_file wavegen.sin_ref k_amplitude_current quiet_run 1000 0
     = (Throws (invalid_argument length_message), [])
  /\ (overflow_error overflow_message = overflow_error overflow_message
      /\ exists z, computed_data_size 65536 = Some z /\ UINT32_MAX < z).
Proof.
  split; [|split].
  - apply (proj1 (C7_length_validation wavegen.sin_ref k_amplitude_current
                    quiet_run 1000 (-1.5) (fun _ => 0))). reflexivity.
  - apply (proj1 (C7_length_validation wavegen.sin_ref k_amplitude_current
                    quiet_run 1000 0 (fun _ => 0))). reflexivity.
  - apply (proj1 (proj2 (C7_length_validation wavegen.sin_ref k_amplitude_current
                           quiet_run 1000 65536 (fun _ => 0)))).
    rewrite create_wave_header_eq. reflexivity.
Defined.

(** ** C8 *)

Lemma get_sample_index_0 sin amp :
  sin 0%float = 0%float ->
  (Double.of_uint32 amp * 0)%float = 0%float ->
  wavegen.get_sample sin (audio_source_of amp 1000) 0 = Some 0.
Proof.
  intros Hsin Hamp. unfold wavegen.get_sample, audio_source_of.
  cbn [wavegen.m_amplitude wavegen.m_frequency wavegen.m_sample_rate].
  replace (2 * wavegen.k_PI * Double.of_uint32 1000
           * (Double.of_uint32 0 * (1 / Double.of_uint32 k_sample_rate)))%float
    with 0%float by (vm_compute; reflexivity).
  rewrite Hsin, Hamp. reflexivity.
Qed.

(** C8. With frequency 1000 Hz, duration 1.0 s, sample rate 48000, 24 bits
    per sample and amplitude 300000, for a sine that maps 0 to 0: the
    header has data_size = 144000 and file_size_field = 144036, the sample
    at index 0 is 0, and, the 48000 samples being defined, the payload has
    144000 bytes of which the first three are 00 00 00. *)
Theorem C8_concrete_scenario :
  forall sin mem,
    sin 0%float = 0%float ->
    samples_defined sin (audio_source_of k_amplitude_previous 1000) (Z.to_nat 48000) = true ->
    exists header payload,
      create_wave_header mem 1 = Returns header
      /\ wave.field wave.off_data_size 4 header = 144000
      /\ wave.field wave.off_file_size 4 header = 144036
      /\ wave.field wave.off_sample_rate 4 header = 48000
      /\ wave.field wave.off_bits_per_sample 2 header = 24
      /\ wavegen.get_sample sin (audio_source_of k_amplitude_previous 1000) 0 = Some 0
      /\ create_wave_data sin k_amplitude_previous 1000 1 = Returns payload
      /\ Z.of_nat (List.length payload) = 144000
      /\ firstn 3 payload = [0; 0; 0].
Proof.
  intros sin mem Hsin Hdef.
  assert (H0 : wavegen.get_sample sin (audio_source_of k_amplitude_previous 1000) 0 = Some 0)
    by (apply get_sample_index_0; [exact Hsin | vm_compute; reflexivity]).
  destruct (payload_of_defined_samples sin k_amplitude_previous 1000 1 48000) as (values & Hp & Hlen & Hnth);
    [reflexivity | unfold UINT32_MAX; lia | exact Hdef |].
  exists (encoded_header 144000), (flat_map sample_bytes values).
  split; [rewrite create_wave_header_eq; reflexivity|].
  split; [reflexivity|]. split; [reflexivity|]. split; [reflexivity|].
  split; [reflexivity|]. split; [exact H0|]. split; [exact Hp|].
  split; [rewrite flat_map_sample_bytes_length; lia|].
  specialize (Hnth 0 ltac:(lia)). rewrite H0 in Hnth. injection Hnth as Hnth.
  destruct values as [|v values]; [simpl in Hlen; lia|].
  cbn [Z.to_nat nth] in Hnth. subst v. reflexivity.
Qed.

Lemma C8_concrete_scenario_witness :
  exists header payload,
    create_wave_header (fun _ => 0) 1 = Returns header
    /\ wave.field wave.off_data_size 4 header = 144000
    /\ wave.field wave.off_file_size 4 header = 144036
    /\ wave.field wave.off_sample_rate 4 header = 48000
    /\ wave.field wave.off_bits_per_sample 2 header = 24
    /\ wavegen.get_sample wavegen.sin_ref (audio_source_of k_amplitude_previous 1000) 0 = Some 0
    /\ create_wave_data wavegen.sin_ref k_amplitude_previous 1000 1 = Returns payload
    /\ Z.of_nat (List.length payload) = 144000
    /\ firstn 3 payload = [0; 0; 0].
Proof.
  apply (C8_concrete_scenario wavegen.sin_ref (fun _ => 0)).
  - vm_compute. reflexivity.
  - vm_compute. reflexivity.
Defined.

(** The same scenario with the amplitude of the current revision. *)
Lemma first_sample_current_amplitude sin :
  sin 0%float = 0%float ->
  wavegen.get_sample sin (audio_source_of k_amplitude_current 1000) 0 = Some 0
  /\ sample_bytes 0 = [0; 0; 0].
Proof.
  intros Hsin. split; [|reflexivity].
  apply get_sample_index_0; [exact Hsin | vm_compute; reflexivity].
Qed.

(** ** C9 *)

Lemma write_to_file_success env hdr hs data ds path t :
  write_to_file env hdr hs data ds path = (Returns tt, t) ->
  t = [ev_open path true; ev_write (firstn (Z.to_nat hs) hdr) true;
       ev_write (firstn (Z.to_nat ds) data) true; ev_close].
Proof.
  unfold write_to_file.
  destruct (can_open env path); cbn [negb]; [|discriminate].
  destruct (header_write_ok env); cbn [negb]; [|discriminate].
  destruct (data_write_ok env); cbn [negb]; [|discriminate].
  intros H. injection H as <-. reflexivity.
Qed.

Lemma create_wave_file_success sin amp r f d t :
  create_wave_file sin amp r f d = (Returns tt, t) ->
  exists header samples,
    create_wave_header (run_storage r) d = Returns header
    /\ create_wave_data sin amp f d = Returns samples
    /\ t = [ev_open "audio.wav" true;
            ev_write (firstn (Z.to_nat (to_uint32 (Z.of_nat (List.length header)))) header) true;
            ev_write (firstn (Z.to_nat (to_uint32 (Z.of_nat (List.length samples)))) samples) true;
            ev_close].
Proof.
  unfold create_wave_file.
  destruct (d <=? 0)%float; [discriminate|].
  destruct (k_sample_rate / 2 <? f); [discriminate|].
  destruct (create_wave_header (run_storage r) d) as [header|e|];
    unfold lift at 1; cbn [then_do]; [|discriminate|discriminate].
  destruct (create_wave_data sin amp f d) as [samples|e|];
    unfold lift; cbn [then_do]; [|discriminate|discriminate].
  destruct (write_to_file _ _ _ _ _ _) as [o t'] eqn:Ew. cbn [app].
  intros H. injection H as -> ->.
  exists header, samples. split; [reflexivity|]. split; [reflexivity|].
  apply (write_to_file_success _ _ _ _ _ _ _ Ew).
Qed.

(** C9. Two runs may differ in the storage their locals start from and in
    their environment. With identical amplitude, frequency and duration
    (the sample rate is the constant 48000), [create_wave_header] gives the
    same outcome in both, byte for byte, and so does [create_wave_data];
    and when both runs of [create_wave_file] return, they have written the
    same bytes. *)
Theorem C9_deterministic_encoding :
  forall sin (r1 r2 : run) amp1 amp2 f1 f2 (d1 d2 : float),
    amp1 = amp2 -> f1 = f2 -> d1 = d2 ->
    create_wave_header (run_storage r1) d1 = create_wave_header (run_storage r2) d2
    /\ create_wave_data sin amp1 f1 d1 = create_wave_data sin amp2 f2 d2
    /\ forall t1 t2,
         create_wave_file sin amp1 r1 f1 d1 = (Returns tt, t1) ->
         create_wave_file sin amp2 r2 f2 d2 = (Returns tt, t2) ->
         t1 = t2.
Proof.
  intros sin r1 r2 amp1 amp2 f1 f2 d1 d2 <- <- <-.
  assert (Hh : create_wave_header (run_storage r1) d1
               = create_wave_header (run_storage r2) d1)
    by (rewrite !create_wave_header_eq; reflexivity).
  split; [exact Hh|]. split; [reflexivity|].
  intros t1 t2 H1 H2.
  apply create_wave_file_success in H1. destruct H1 as (h1 & s1 & Hh1 & Hs1 & ->).
  apply create_wave_file_success in H2. destruct H2 as (h2 & s2 & Hh2 & Hs2 & ->).
  rewrite Hh, Hh2 in Hh1. injection Hh1 as ->.
  rewrite Hs2 in Hs1. injection Hs1 as ->. reflexivity.
Qed.

Lemma C9_deterministic_encoding_witness :
  create_wave_header (run_storage quiet_run) 0x1p-13
  = create_wave_header (run_storage noisy_run) 0x1p-13
  /\ create_wave_data wavegen.sin_ref k_amplitude_current 1000 0x1p-13
     = create_wave_data wavegen.sin_ref k_amplitude_current 1000 0x1p-13
  /\ snd (create_wave_file wavegen.sin_ref k_amplitude_current quiet_run 1000 0x1p-13)
     = snd (create_wave_file wavegen.sin_ref k_amplitude_current noisy_run 1000 0x1p-13).
Proof.
  destruct (C9_deterministic_encoding wavegen.sin_ref quiet_run noisy_run
              k_amplitude_current k_amplitude_current 1000 1000 0x1p-13 0x1p-13
              eq_refl eq_refl eq_refl) as (Hh & Hd & Ht).
  split; [exact Hh|]. split; [exact Hd|].
  apply Ht; vm_compute; reflexivity.
Defined.


(** * Further properties of the code *)

(** ** [create_wave_file] and [write_to_file] *)

Lemma collect_samples_defined_from sin src n : forall sample_index vs,
  collect sin src n sample_index = Some vs ->
  samples_defined_from sin src n sample_index = true.
Proof.
  induction n as [|n IH]; intros sample_index vs H; [reflexivity|].
  cbn [collect samples_defined_from] in *.
  destruct (wavegen.get_sample sin src sample_index) as [v|]; [|discriminate].
  destruct (collect sin src n (sample_index + 1)) as [ws|] eqn:E; [|discriminate].
  eapply IH, E.
Qed.

Lemma create_wave_data_returns sin amp f d payload :
  create_wave_data sin amp f d = Returns payload <->
  exists n vs,
    total_sample_count d = Some n
    /\ collect sin (audio_source_of amp f) (Z.to_nat n) 0 = Some vs
    /\ payload = flat_map sample_bytes vs.
Proof.
  rewrite create_wave_data_collect. split.
  - destruct (total_sample_count d) as [n|]; [|discriminate].
    destruct (collect _ _ _ _) as [vs|] eqn:E; [|discriminate].
    intros H. injection H as <-. exists n, vs. repeat split. exact E.
  - intros (n & vs & -> & -> & ->). reflexivity.
Qed.

Lemma flat_map_sample_bytes_are_bytes vs : Forall is_byte (flat_map sample_bytes vs).
Proof.
  induction vs as [|v vs IH]; [constructor|].
  cbn [flat_map]. apply Forall_app. split; [apply sample_bytes_are_bytes | exact IH].
Qed.

Lemma header_size_argument (header : list Z) :
  List.length header = 44%nat ->
  firstn (Z.to_nat (to_uint32 (Z.of_nat (List.length header)))) header = header.
Proof.
  intros H. rewrite H.
  change (Z.to_nat (to_uint32 (Z.of_nat 44))) with 44%nat.
  apply firstn_all2. lia.
Qed.

Lemma create_wave_header_returns mem d header :
  create_wave_header mem d = Returns header <->
  exists z, computed_data_size d = Some z /\ z <= UINT32_MAX /\ header = encoded_header z.
Proof.
  rewrite create_wave_header_eq. split.
  - destruct (computed_data_size d) as [z|]; [|discriminate].
    destruct (UINT32_MAX <? z) eqn:E; [discriminate|].
    intros H. injection H as <-. exists z. apply Z.ltb_ge in E. repeat split. exact E.
  - intros (z & -> & Hz & ->). apply Z.ltb_ge in Hz. rewrite Hz. reflexivity.
Qed.

(** X1. Whatever the arguments, the sine and the environment,
    [create_wave_file] leaves one of five traces: nothing; a failed open of
    audio.wav; open, failed write of the 44 header bytes, close; or open,
    header, a data write (failed or not), close. So no other file is ever
    opened, an opened file is always closed, the header written is always
    44 bytes long, and no data follows a failed header write. *)
Theorem X1_file_trace_shapes :
  forall sin amp r f d, file_trace (snd (create_wave_file sin amp r f d)).
Proof.
  intros sin amp r f d. unfold create_wave_file.
  destruct (d <=? 0)%float; [constructor|].
  destruct (k_sample_rate / 2 <? f); [constructor|].
  destruct (create_wave_header (run_storage r) d) as [header|e|] eqn:Eh;
    unfold lift at 1; cbn [then_do snd]; [|constructor|constructor].
  apply create_wave_header_returns in Eh. destruct Eh as (z & _ & _ & ->).
  destruct (create_wave_data sin amp f d) as [samples|e|];
    unfold lift; cbn [then_do snd]; [|constructor|constructor].
  unfold write_to_file.
  rewrite header_size_argument by apply encoded_header_length.
  destruct (can_open (run_env r) "audio.wav"); cbn [negb app snd]; [|constructor].
  destruct (header_write_ok (run_env r)); cbn [negb app snd];
    [|constructor; apply encoded_header_length].
  destruct (data_write_ok (run_env r)); cbn [negb app snd];
    constructor; apply encoded_header_length.
Qed.

(** X2. [create_wave_file] returns normally exactly when: the duration is
    not <= 0, the frequency is at most 24000, the data size is defined and
    at most 2^32 - 1, the sample count is defined and every sample below it
    converts to [int32_t], and the file can be opened and both writes
    succeed. *)
Theorem X2_success_conditions :
  forall sin amp r f d,
    fst (create_wave_file sin amp r f d) = Returns tt <->
    (d <=? 0)%float = false
    /\ f <= 24000
    /\ (exists z, computed_data_size d = Some z /\ z <= UINT32_MAX)
    /\ (exists n, total_sample_count d = Some n
                  /\ samples_defined sin (audio_source_of amp f) (Z.to_nat n) = true)
    /\ can_open (run_env r) "audio.wav" = true
    /\ header_write_ok (run_env r) = true
    /\ data_write_ok (run_env r) = true.
Proof.
  intros sin amp r f d. unfold create_wave_file.
  change (k_sample_rate / 2) with 24000.
  destruct (d <=? 0)%float; [split; [discriminate | intros (H & _); discriminate]|].
  destruct (24000 <? f) eqn:Ef;
    [apply Z.ltb_lt in Ef; split; [discriminate | intros (_ & H & _); lia]|].
  apply Z.ltb_ge in Ef.
  destruct (create_wave_header (run_storage r) d) as [header|e|] eqn:Eh;
    unfold lift at 1; cbn [then_do].
  - apply create_wave_header_returns in Eh. destruct Eh as (z & Hz & Hzle & ->).
    destruct (create_wave_data sin amp f d) as [samples|e|] eqn:Es;
      unfold lift; cbn [then_do].
    + apply create_wave_data_returns in Es. destruct Es as (n & vs & Hn & Hc & ->).
      unfold write_to_file.
      destruct (can_open (run_env r) "audio.wav"); cbn [negb fst];
        [|split; [discriminate | intros (_ & _ & _ & _ & H & _); discriminate]].
      destruct (header_write_ok (run_env r)); cbn [negb fst];
        [|split; [discriminate | intros (_ & _ & _ & _ & _ & H & _); discriminate]].
      destruct (data_write_ok (run_env r)); cbn [negb fst];
        [|split; [discriminate | intros (_ & _ & _ & _ & _ & _ & H); discriminate]].
      split; [|reflexivity]. intros _.
      split; [reflexivity|]. split; [exact Ef|].
      split; [exists z; split; assumption|].
      split; [|repeat split].
      exists n. split; [exact Hn|]. eapply collect_samples_defined_from, Hc.
    + exfalso. exact (create_wave_data_never_throws _ _ _ _ _ Es).
    + cbn [fst]. split; [discriminate|].
      intros (_ & _ & _ & (n & Hn & Hd) & _). exfalso.
      rewrite create_wave_data_collect, Hn in Es.
      destruct (samples_defined_collect _ _ _ Hd) as [vs Hvs].
      rewrite Hvs in Es. discriminate.
  - cbn [fst]. split; [discriminate|].
    intros (_ & _ & (z & Hz & Hzle) & _). exfalso.
    rewrite create_wave_header_eq, Hz in Eh.
    apply Z.ltb_ge in Hzle. rewrite Hzle in Eh. discriminate.
  - cbn [fst]. split; [discriminate|].
    intros (_ & _ & (z & Hz & Hzle) & _). exfalso.
    rewrite create_wave_header_eq, Hz in Eh.
    apply Z.ltb_ge in Hzle. rewrite Hzle in Eh. discriminate.
Qed.

Lemma X2_success_conditions_witness :
  fst (create_wave_file wavegen.sin_ref k_amplitude_current quiet_run 1000 0x1p-13)
  = Returns tt.
Proof.
  apply (proj2 (X2_success_conditions wavegen.sin_ref k_amplitude_current
                  quiet_run 1000 0x1p-13)).
  split; [reflexivity|]. split; [lia|].
  split; [exists 17; split; [reflexivity | unfold UINT32_MAX; lia]|].
  split; [exists 5; split; [reflexivity | vm_compute; reflexivity]|].
  repeat split.
Defined.

(** X3. When [create_wave_file] returns and the payload is shorter than
    2^32 bytes, what was written to audio.wav is the 44-byte header
    followed by the whole payload of 3 bytes per sample, every element
    being a byte, and then the file was closed. *)
Theorem X3_file_contents :
  forall sin amp r f d t n,
    create_wave_file sin amp r f d = (Returns tt, t) ->
    total_sample_count d = Some n ->
    3 * n <= UINT32_MAX ->
    exists header payload,
      create_wave_header (run_storage r) d = Returns header
      /\ create_wave_data sin amp f d = Returns payload
      /\ t = [ev_open "audio.wav" true; ev_write header true;
              ev_write payload true; ev_close]
      /\ List.length header = 44%nat
      /\ Z.of_nat (List.length payload) = 3 * n
      /\ Forall is_byte (header ++ payload).
Proof.
  intros sin amp r f d t n H Hn Hsmall.
  apply create_wave_file_success in H.
  destruct H as (header & payload & Hh & Hp & ->).
  exists header, payload.
  pose proof Hh as Hh'. apply create_wave_header_returns in Hh'.
  destruct Hh' as (z & _ & _ & ->).
  pose proof Hp as Hp'. apply create_wave_data_returns in Hp'.
  destruct Hp' as (n' & vs & Hn' & Hc & ->).
  rewrite Hn in Hn'. injection Hn' as <-.
  pose proof (collect_length _ _ _ _ _ Hc) as Hlen.
  pose proof (total_sample_count_range _ _ Hn) as Hrange.
  assert (Hplen : Z.of_nat (List.length (flat_map sample_bytes vs)) = 3 * n)
    by (rewrite flat_map_sample_bytes_length; lia).
  split; [exact Hh|]. split; [exact Hp|].
  split.
  - rewrite header_size_argument by apply encoded_header_length.
    rewrite Hplen, to_uint32_small by lia.
    rewrite firstn_all2 by lia. reflexivity.
  - split; [apply encoded_header_length|]. split; [exact Hplen|].
    apply Forall_app. split;
      [apply encoded_header_bytes | apply flat_map_sample_bytes_are_bytes].
Qed.

Lemma X3_file_contents_witness :
  exists header payload,
    create_wave_header (run_storage quiet_run) 0x1p-13 = Returns header
    /\ create_wave_data wavegen.sin_ref k_amplitude_current 1000 0x1p-13 = Returns payload
    /\ [ev_open "audio.wav" true;
        ev_write (encoded_header 17) true;
        ev_write [0; 0; 0; 9; 192; 59; 91; 122; 118; 182; 45; 175; 191; 225; 228] true;
        ev_close]
       = [ev_open "audio.wav" true; ev_write header true;
          ev_write payload true; ev_close]
    /\ List.length header = 44%nat
    /\ Z.of_nat (List.length payload) = 3 * 5
    /\ Forall is_byte (header ++ payload).
Proof.
  apply (X3_file_contents wavegen.sin_ref k_amplitude_current quiet_run 1000 0x1p-13).
  - vm_compute. reflexivity.
  - reflexivity.
  - unfold UINT32_MAX. lia.
Defined.

(** X4. A positive duration shorter than one sample period is accepted:
    when the sample count is 0 the sine is never evaluated, the payload is
    empty, and with the header accepted and the file writable the program
    writes the header alone. *)
Theorem X4_header_only_file :
  forall sin amp r f d header,
    (d <=? 0)%float = false ->
    f <= 24000 ->
    total_sample_count d = Some 0 ->
    create_wave_header (run_storage r) d = Returns header ->
    create_wave_data sin amp f d = Returns []
    /\ (can_open (run_env r) "audio.wav" = true ->
        header_write_ok (run_env r) = true ->
        data_write_ok (run_env r) = true ->
        create_wave_file sin amp r f d
        = (Returns tt, [ev_open "audio.wav" true; ev_write header true;
                        ev_write [] true; ev_close])).
Proof.
  intros sin amp r f d header Hd Hf Hn Hh.
  assert (Hp : create_wave_data sin amp f d = Returns [])
    by (rewrite create_wave_data_collect, Hn; reflexivity).
  split; [exact Hp|]. intros Ho Hw1 Hw2.
  rewrite (create_wave_file_writes sin amp r f d header []) by assumption.
  pose proof Hh as Hh'. apply create_wave_header_returns in Hh'.
  destruct Hh' as (z & _ & _ & ->).
  unfold write_to_file. rewrite Ho, Hw1, Hw2. cbn [negb].
  rewrite header_size_argument by apply encoded_header_length. reflexivity.
Qed.

Lemma X4_header_only_file_witness :
  create_wave_data wavegen.sin_ref k_amplitude_current 1000 0x1p-17 = Returns []
  /\ create_wave_file wavegen.sin_ref k_amplitude_current quiet_run 1000 0x1p-17
     = (Returns tt, [ev_open "audio.wav" true; ev_write (encoded_header 1) true;
                     ev_write [] true; ev_close]).
Proof.
  destruct (X4_header_only_file wavegen.sin_ref k_amplitude_current quiet_run
              1000 0x1p-17 (encoded_header 1)) as [Hp Hf].
  - reflexivity.
  - lia.
  - reflexivity.
  - rewrite create_wave_header_eq. reflexivity.
  - split; [exact Hp|]. apply Hf; reflexivity.
Defined.

(** X5. Whenever [create_wave_data] returns, every element of the payload
    is a byte and the payload has exactly three bytes for each of the
    [total_sample_count] samples, so its length is a multiple of 3 below
    3 x 2^32. *)
Theorem X5_payload_shape :
  forall sin amp f d payload,
    create_wave_data sin amp f d = Returns payload ->
    Forall is_byte payload
    /\ exists n, total_sample_count d = Some n
                 /\ 0 <= n <= UINT32_MAX
                 /\ Z.of_nat (List.length payload) = 3 * n.
Proof.
  intros sin amp f d payload H.
  apply create_wave_data_returns in H. destruct H as (n & vs & Hn & Hc & ->).
  split; [apply flat_map_sample_bytes_are_bytes|].
  exists n. split; [exact Hn|]. split; [eapply total_sample_count_range, Hn|].
  pose proof (collect_length _ _ _ _ _ Hc) as Hlen.
  pose proof (total_sample_count_range _ _ Hn).
  rewrite flat_map_sample_bytes_length. lia.
Qed.

Lemma X5_payload_shape_witness :
  Forall is_byte [0; 0; 0; 9; 192; 59; 91; 122; 118; 182; 45; 175; 191; 225; 228]
  /\ exists n, total_sample_count 0x1p-13 = Some n
               /\ 0 <= n <= UINT32_MAX
               /\ Z.of_nat (List.length
                    [0; 0; 0; 9; 192; 59; 91; 122; 118; 182; 45; 175; 191; 225; 228])
                  = 3 * n.
Proof.
  apply (X5_payload_shape wavegen.sin_ref k_amplitude_current 1000 0x1p-13).
  vm_compute. reflexivity.
Defined.

(** ** The header as a reader sees it *)

Lemma le_round_trip n z :
  fits (8 * Z.of_nat n) z -> le_value (le_bytes n z) = z.
Proof.
  intros H. rewrite le_value_le_bytes. apply Z.mod_small. exact H.
Qed.

Lemma WaveHeader_ext t1 fs t2 t3 bs af cc sr bps bpb bits t4 ds
    t1' fs' t2' t3' bs' af' cc' sr' bps' bpb' bits' t4' ds' :
  t1 = t1' -> fs = fs' -> t2 = t2' -> t3 = t3' -> bs = bs' -> af = af' ->
  cc = cc' -> sr = sr' -> bps = bps' -> bpb = bpb' -> bits = bits' ->
  t4 = t4' -> ds = ds' ->
  Some (wave.Build_WaveHeader t1 fs t2 t3 bs af cc sr bps bpb bits t4 ds)
  = Some (wave.Build_WaveHeader t1' fs' t2' t3' bs' af' cc' sr' bps' bpb' bits' t4' ds').
Proof. intros; subst; reflexivity. Qed.

Lemma read_header_object_bytes h :
  well_formed h -> read_header (wave.object_bytes h) = Some h.
Proof.
  destruct h as [t1 fs t2 t3 bs af cc sr bps bpb bits t4 ds].
  unfold well_formed.
  cbn [wave.file_type_bloc_id wave.file_size wave.file_format_id wave.format_bloc_id
       wave.bloc_size wave.audio_format wave.channel_count wave.sample_rate
       wave.bytes_per_sec wave.bytes_per_bloc wave.bits_per_sample
       wave.data_bloc_id wave.data_size].
  intros (L1 & L2 & L3 & L4 & Hfs & Hbs & Haf & Hcc & Hsr & Hbps & Hbpb & Hbits & Hds).
  destruct t1 as [|a1 [|a2 [|a3 [|a4 [|? ?]]]]]; try discriminate L1.
  destruct t2 as [|b1 [|b2 [|b3 [|b4 [|? ?]]]]]; try discriminate L2.
  destruct t3 as [|c1 [|c2 [|c3 [|c4 [|? ?]]]]]; try discriminate L3.
  destruct t4 as [|d1 [|d2 [|d3 [|d4 [|? ?]]]]]; try discriminate L4.
  unfold read_header.
  replace (Nat.eqb (List.length (wave.object_bytes _)) 44) with true by reflexivity.
  apply WaveHeader_ext.
  - reflexivity.
  - exact (le_round_trip 4 fs Hfs).
  - reflexivity.
  - reflexivity.
  - exact (le_round_trip 4 bs Hbs).
  - exact (le_round_trip 2 af Haf).
  - exact (le_round_trip 2 cc Hcc).
  - exact (le_round_trip 4 sr Hsr).
  - exact (le_round_trip 4 bps Hbps).
  - exact (le_round_trip 2 bpb Hbpb).
  - exact (le_round_trip 2 bits Hbits).
  - reflexivity.
  - exact (le_round_trip 4 ds Hds).
Qed.

(** X6. The object representation loses nothing: reading the 44 bytes of
    any header whose members hold values of their types gives the header
    back. *)
Theorem X6_header_round_trip :
  forall h, well_formed h -> read_header (wave.object_bytes h) = Some h.
Proof. exact read_header_object_bytes. Qed.

Lemma X6_header_round_trip_witness :
  read_header (wave.object_bytes header_format) = Some header_format.
Proof.
  apply (X6_header_round_trip header_format).
  unfold well_formed, fits. cbn. repeat split; try reflexivity; discriminate.
Defined.

(** X7. For every duration [create_wave_header] accepts, a reader finds in
    the 44 bytes: the tags RIFF, WAVE, fmt and data, a format chunk of 16
    bytes, PCM, one channel, 48000 Hz, 144000 bytes per second, 3 bytes per
    block, 24 bits per sample, the computed data size, and that size plus
    36 modulo 2^32 as file size. *)
Theorem X7_header_contents :
  forall mem d header,
    create_wave_header mem d = Returns header ->
    exists z,
      computed_data_size d = Some z /\ 0 <= z <= UINT32_MAX
      /\ read_header header =
         Some {| wave.file_type_bloc_id := chars "RIFF";
                 wave.file_size := (z + 36) mod 2 ^ 32;
                 wave.file_format_id := chars "WAVE";
                 wave.format_bloc_id := chars "fmt ";
                 wave.bloc_size := 16;
                 wave.audio_format := 1;
                 wave.channel_count := 1;
                 wave.sample_rate := 48000;
                 wave.bytes_per_sec := 144000;
                 wave.bytes_per_bloc := 3;
                 wave.bits_per_sample := 24;
                 wave.data_bloc_id := chars "data";
                 wave.data_size := z |}.
Proof.
  intros mem d header H.
  apply create_wave_header_returns in H. destruct H as (z & Hz & Hle & ->).
  pose proof (computed_data_size_range _ _ Hz) as Hr.
  exists z. split; [exact Hz|]. split; [lia|].
  destruct (encoded_header_fields z) as (_ & _ & _ & _ & _ & Hds & Hfs).
  rewrite (to_uint32_small z) in Hds, Hfs by lia.
  unfold read_header.
  replace (Nat.eqb (List.length (encoded_header z)) 44) with true by reflexivity.
  apply WaveHeader_ext; [reflexivity | | reflexivity .. | ].
  - change (wave.field 4 4 (encoded_header z))
      with (wave.field wave.off_file_size 4 (encoded_header z)).
    rewrite Hfs. unfold to_uint32.
    replace (44 + z - 8) with (z + 36) by lia. reflexivity.
  - exact Hds.
Qed.

Lemma X7_header_contents_witness :
  exists z,
    computed_data_size 1 = Some z /\ 0 <= z <= UINT32_MAX
    /\ read_header (encoded_header 144000) =
       Some {| wave.file_type_bloc_id := chars "RIFF";
               wave.file_size := (z + 36) mod 2 ^ 32;
               wave.file_format_id := chars "WAVE";
               wave.format_bloc_id := chars "fmt ";
               wave.bloc_size := 16;
               wave.audio_format := 1;
               wave.channel_count := 1;
               wave.sample_rate := 48000;
               wave.bytes_per_sec := 144000;
               wave.bytes_per_bloc := 3;
               wave.bits_per_sample := 24;
               wave.data_bloc_id := chars "data";
               wave.data_size := z |}.
Proof.
  apply (X7_header_contents (fun _ => 0) 1 (encoded_header 144000)).
  rewrite create_wave_header_eq. reflexivity.
Defined.


(** ** The command line *)

Section CommandLineFacts.
Variable stoul : string -> option Z.
Variable stod : string -> option float.

(** X8. [parse_args] throws nothing but [std::invalid_argument]. With fewer
    than three entries in [argv] (and at least the program name) it is the
    usage error naming [argv[0]], and the conversions are not consulted;
    otherwise it is the one error that replaces whatever [std::stoul] or
    [std::stod] threw. *)
Theorem X8_parse_args_errors :
  forall argv e,
    parse_args stoul stod argv = Throws e ->
    (exists program rest,
        argv = program :: rest /\ (List.length rest < 2)%nat
        /\ e = invalid_argument (usage_message program))
    \/ ((3 <= List.length argv)%nat
        /\ e = invalid_argument numbers_message
        /\ (stoul (nth 1 argv EmptyString) = None
            \/ stod (nth 2 argv EmptyString) = None)).
Proof.
  intros argv e. unfold parse_args.
  destruct (Z.of_nat (List.length argv) <? 3) eqn:E.
  - apply Z.ltb_lt in E. destruct argv as [|program rest]; [discriminate|].
    intros H. injection H as <-. left. exists program, rest.
    cbn [List.length] in E. repeat split. lia.
  - apply Z.ltb_ge in E. intros H. right. split; [lia|].
    destruct (stoul (nth 1 argv EmptyString)) as [n|].
    + destruct (stod (nth 2 argv EmptyString)) as [d|]; [discriminate|].
      injection H as <-. split; [reflexivity | right; reflexivity].
    + injection H as <-. split; [reflexivity | left; reflexivity].
Qed.

(** X9. [parse_args] returns exactly when [argv] has at least three entries
    and both conversions succeed; the frequency it returns is the value of
    [std::stoul] reduced modulo 2^32 (the assignment to [uint32_t]), the
    duration is the value of [std::stod], and further arguments are
    ignored. *)
Theorem X9_parse_args_result :
  forall argv frequency file_length,
    parse_args stoul stod argv = Returns (frequency, file_length) <->
    (3 <= List.length argv)%nat
    /\ exists converted,
         stoul (nth 1 argv EmptyString) = Some converted
         /\ frequency = converted mod 2 ^ 32
         /\ stod (nth 2 argv EmptyString) = Some file_length.
Proof.
  intros argv frequency file_length. unfold parse_args.
  destruct (Z.of_nat (List.length argv) <? 3) eqn:E.
  - apply Z.ltb_lt in E. split.
    + destruct argv; discriminate.
    + intros [H _]. lia.
  - apply Z.ltb_ge in E.
    destruct (stoul (nth 1 argv EmptyString)) as [n|].
    + destruct (stod (nth 2 argv EmptyString)) as [d|].
      * split.
        -- intros H. injection H as <- <-. split; [lia|]. exists n. repeat split.
        -- intros (_ & n' & Hn & -> & Hd). injection Hn as <-. injection Hd as <-.
           reflexivity.
      * split; [discriminate|]. intros (_ & n' & _ & _ & Hd). discriminate.
    + split; [discriminate|]. intros (_ & n' & Hn & _). discriminate.
Qed.
End CommandLineFacts.

Lemma X8_parse_args_errors_witness :
  (exists program rest,
      ["wavegen"; "1000"]%string = program :: rest /\ (List.length rest < 2)%nat
      /\ invalid_argument (usage_message "wavegen") = invalid_argument (usage_message program))
  \/ ((3 <= List.length ["wavegen"; "1000"]%string)%nat
      /\ invalid_argument (usage_message "wavegen") = invalid_argument numbers_message
      /\ (stoul_examples (nth 1 ["wavegen"; "1000"]%string EmptyString) = None
          \/ stod_examples (nth 2 ["wavegen"; "1000"]%string EmptyString) = None)).
Proof.
  apply (X8_parse_args_errors stoul_examples stod_examples ["wavegen"; "1000"]%string).
  reflexivity.
Defined.

Lemma X9_parse_args_result_witness :
  parse_args stoul_examples stod_examples
    ["wavegen"; "4294968296"; "0.0001220703125"; "ignored"]%string
  = Returns (1000, 0x1p-13%float).
Proof.
  apply (proj2 (X9_parse_args_result stoul_examples stod_examples
                  ["wavegen"; "4294968296"; "0.0001220703125"; "ignored"]%string
                  1000 0x1p-13%float)).
  split; [simpl; lia|]. exists 4294968296. repeat split.
Defined.

(** ** [main] *)

Lemma create_wave_file_throws_trace sin amp r f d e t :
  create_wave_file sin amp r f d = (Throws e, t) ->
  t = [] \/ exists what, e = ios_failure what.
Proof.
  unfold create_wave_file.
  destruct (d <=? 0)%float; [intros H; injection H as <- <-; left; reflexivity|].
  destruct (k_sample_rate / 2 <? f); [intros H; injection H as <- <-; left; reflexivity|].
  destruct (create_wave_header (run_storage r) d) as [header|e'|];
    unfold lift at 1; cbn [then_do];
    [|intros H; injection H as <- <-; left; reflexivity|discriminate].
  destruct (create_wave_data sin amp f d) as [samples|e'|] eqn:Es;
    unfold lift; cbn [then_do];
    [|intros H; injection H as <- <-; left; reflexivity|discriminate].
  destruct (write_to_file _ _ _ _ _ _) as [o t'] eqn:Ew. cbn [app].
  intros H. injection H as -> ->. right.
  apply (write_to_file_throws (run_env r) header
           (to_uint32 (Z.of_nat (List.length header))) samples
           (to_uint32 (Z.of_nat (List.length samples))) "audio.wav").
  rewrite Ew. reflexivity.
Qed.

Lemma file_events_to_file t : file_events (map to_file t) = t.
Proof. induction t as [|e t IH]; [reflexivity|]. cbn. f_equal. exact IH. Qed.

Lemma file_events_app a b : file_events (a ++ b) = file_events a ++ file_events b.
Proof. unfold file_events. apply flat_map_app. Qed.

Section MainFacts.
Variable stoul : string -> option Z.
Variable stod : string -> option float.
Variable sin : float -> float.
Variable k_amplitude : Z.

(** X10. [main] lets no exception escape and its exit code is 0 or -1. It
    is 0 exactly when the arguments parse and [create_wave_file] returns,
    and then the last thing printed is the line Finished.; it is -1
    exactly when [parse_args] or [create_wave_file] throws, and then the
    last thing printed, on the error stream, is the line with the text of
    that exception, and Finished. is not printed. *)
Theorem X10_main_exit_code :
  forall r argv,
    let result := main stoul stod sin k_amplitude r argv in
    (forall e, fst result <> Throws e)
    /\ (forall code, fst result = Returns code -> code = 0 \/ code = -1)
    /\ (fst result = Returns 0 <->
        exists frequency file_length,
          parse_args stoul stod argv = Returns (frequency, file_length)
          /\ fst (create_wave_file sin k_amplitude r frequency file_length) = Returns tt)
    /\ (fst result = Returns 0 ->
        last (snd result) (to_cout []) = to_cout [text ("Finished." ++ newline)%string])
    /\ (fst result = Returns (-1) <->
        exists e,
          parse_args stoul stod argv = Throws e
          \/ exists frequency file_length,
               parse_args stoul stod argv = Returns (frequency, file_length)
               /\ fst (create_wave_file sin k_amplitude r frequency file_length) = Throws e)
    /\ (fst result = Returns (-1) ->
        (exists e, last (snd result) (to_cout []) = error_line e)
        /\ ~ In (to_cout [text ("Finished." ++ newline)%string]) (snd result)).
Proof.
  intros r argv. unfold main. cbv zeta.
  destruct (parse_args stoul stod argv) as [[frequency file_length]|e|] eqn:Ep.
  - destruct (create_wave_file sin k_amplitude r frequency file_length) as [o t] eqn:Ec.
    destruct o as [[]|e|]; cbn [fst snd].
    + split; [discriminate|]. split; [intros code H; injection H as <-; left; reflexivity|].
      split; [split; [intros _; exists frequency, file_length;
                      split; [reflexivity | rewrite Ec; reflexivity]
                     | reflexivity]|].
      split; [intros _; rewrite app_comm_cons; apply last_last|].
      split; [|discriminate].
      split; [discriminate|].
      intros (e & [H|(f' & d' & H & H')]); [discriminate|].
      injection H as <- <-. rewrite Ec in H'. discriminate.
    + split; [discriminate|]. split; [intros code H; injection H as <-; right; reflexivity|].
      split; [split; [discriminate|]|].
      { intros (f' & d' & H & H'). injection H as <- <-. rewrite Ec in H'. discriminate. }
      split; [discriminate|].
      split; [split; [intros _; exists e; right; exists frequency, file_length;
                      split; [reflexivity | rewrite Ec; reflexivity]
                     | reflexivity]|].
      intros _. split; [exists e; rewrite app_comm_cons; apply last_last|].
      rewrite app_comm_cons. intros H. apply in_app_or in H.
      destruct H as [H|[H|[]]]; [|discriminate H].
      destruct H as [H|H]; [discriminate H|].
      apply in_map_iff in H. destruct H as (x & H & _). discriminate H.
    + split; [discriminate|]. split; [discriminate|].
      split; [split; [discriminate|]|].
      { intros (f' & d' & H & H'). injection H as <- <-. rewrite Ec in H'. discriminate. }
      split; [discriminate|].
      split; [split; [discriminate|]|discriminate].
      intros (e & [H|(f' & d' & H & H')]); [discriminate|].
      injection H as <- <-. rewrite Ec in H'. discriminate.
  - cbn [fst snd].
    split; [discriminate|]. split; [intros code H; injection H as <-; right; reflexivity|].
    split; [split; [discriminate | intros (f' & d' & H & _); discriminate]|].
    split; [discriminate|].
    split; [split; [intros _; exists e; left; reflexivity | reflexivity]|].
    intros _. split; [exists e; reflexivity|].
    intros [H|[]]. discriminate H.
  - cbn [fst snd].
    split; [discriminate|]. split; [discriminate|].
    split; [split; [discriminate | intros (f' & d' & H & _); discriminate]|].
    split; [discriminate|].
    split; [split; [discriminate|]|discriminate].
    intros (e & [H|(f' & d' & H & _)]); discriminate.
Qed.

(** X11. When the error [main] reports is not an I/O failure (so: bad
    arguments, a duration <= 0, a frequency above 24000 or a data size
    above 2^32 - 1), no file has been opened or written. *)
Theorem X11_main_rejects_before_touching_files :
  forall r argv e,
    In (error_line e) (snd (main stoul stod sin k_amplitude r argv)) ->
    (forall text, e <> ios_failure text) ->
    file_events (snd (main stoul stod sin k_amplitude r argv)) = []
    /\ fst (main stoul stod sin k_amplitude r argv) = Returns (-1).
Proof.
  intros r argv e. unfold main.
  destruct (parse_args stoul stod argv) as [[frequency file_length]|e'|] eqn:Ep.
  - destruct (create_wave_file sin k_amplitude r frequency file_length) as [o t] eqn:Ec.
    destruct o as [[]|e'|]; cbn [fst snd].
    + rewrite app_comm_cons. intros H _. exfalso. apply in_app_or in H.
      destruct H as [[H|H]|[H|[]]]; try discriminate H.
      apply in_map_iff in H. destruct H as (x & H & _). discriminate H.
    + rewrite app_comm_cons. intros H Hio. apply in_app_or in H.
      destruct H as [[H|H]|[H|[]]].
      * discriminate H.
      * apply in_map_iff in H. destruct H as (x & H & _). discriminate H.
      * injection H as ->.
        destruct (create_wave_file_throws_trace _ _ _ _ _ _ _ Ec) as [->|[text ->]].
        -- split; reflexivity.
        -- exfalso. apply (Hio text). reflexivity.
    + intros H _. exfalso. destruct H as [H|H]; [discriminate H|].
      apply in_map_iff in H. destruct H as (x & H & _). discriminate H.
  - cbn [fst snd]. intros _ _. split; reflexivity.
  - cbn [snd]. intros [].
Qed.

(** X12. The frequency argument is taken modulo 2^32: two command lines
    whose frequency arguments convert to numbers that agree modulo 2^32
    (and that are otherwise the same) make [main] do exactly the same:
    same exit code, same output, same file. *)
Theorem X12_main_frequency_modulo :
  forall r program a1 a1' rest n n',
    stoul a1 = Some n -> stoul a1' = Some n' ->
    n mod 2 ^ 32 = n' mod 2 ^ 32 ->
    main stoul stod sin k_amplitude r (program :: a1 :: rest)
    = main stoul stod sin k_amplitude r (program :: a1' :: rest).
Proof.
  intros r program a1 a1' rest n n' Hn Hn' Hmod.
  unfold main.
  replace (parse_args stoul stod (program :: a1 :: rest))
    with (parse_args stoul stod (program :: a1' :: rest)); [reflexivity|].
  unfold parse_args. cbn [List.length nth].
  destruct (Z.of_nat (S (S (List.length rest))) <? 3); [reflexivity|].
  rewrite Hn, Hn'. unfold to_uint32. rewrite Hmod. reflexivity.
Qed.
End MainFacts.

Lemma X10_main_exit_code_witness :
  fst (main stoul_examples stod_examples wavegen.sin_ref k_amplitude_current quiet_run
         ["wavegen"; "1000"; "0.0001220703125"]%string) = Returns 0
  /\ fst (main stoul_examples stod_examples wavegen.sin_ref k_amplitude_current quiet_run
            ["wavegen"; "30000"; "0.0001220703125"]%string) = Returns (-1).
Proof.
  split.
  - apply (proj1 (proj2 (proj2 (X10_main_exit_code stoul_examples stod_examples
             wavegen.sin_ref k_amplitude_current quiet_run
             ["wavegen"; "1000"; "0.0001220703125"]%string)))).
    exists 1000, 0x1p-13%float. split; [reflexivity | vm_compute; reflexivity].
  - apply (proj1 (proj2 (proj2 (proj2 (proj2 (X10_main_exit_code stoul_examples
             stod_examples wavegen.sin_ref k_amplitude_current quiet_run
             ["wavegen"; "30000"; "0.0001220703125"]%string)))))).
    exists (invalid_argument frequency_message). right.
    exists 30000, 0x1p-13%float. split; [reflexivity | vm_compute; reflexivity].
Defined.

Lemma X11_main_rejects_before_touching_files_witness :
  file_events (snd (main stoul_examples stod_examples wavegen.sin_ref
                      k_amplitude_current quiet_run
                      ["wavegen"; "1000"; "-1.5"]%string)) = []
  /\ fst (main stoul_examples stod_examples wavegen.sin_ref k_amplitude_current
            quiet_run ["wavegen"; "1000"; "-1.5"]%string) = Returns (-1).
Proof.
  apply (X11_main_rejects_before_touching_files stoul_examples stod_examples
           wavegen.sin_ref k_amplitude_current quiet_run
           ["wavegen"; "1000"; "-1.5"]%string (invalid_argument length_message)).
  - vm_compute. right. left. reflexivity.
  - discriminate.
Defined.

Lemma X12_main_frequency_modulo_witness :
  main stoul_examples stod_examples wavegen.sin_ref k_amplitude_current quiet_run
    ["wavegen"; "1000"; "0.0001220703125"]%string
  = main stoul_examples stod_examples wavegen.sin_ref k_amplitude_current quiet_run
      ["wavegen"; "4294968296"; "0.0001220703125"]%string.
Proof.
  apply (X12_main_frequency_modulo stoul_examples stod_examples wavegen.sin_ref
           k_amplitude_current quiet_run "wavegen" "1000" "4294968296"
           ["0.0001220703125"%string] 1000 4294968296); reflexivity.
Defined.


(** ** The first revision (src/unnamed/part_001) *)

Lemma to_uint16_small z : 0 <= z < 2 ^ 16 -> to_uint16 z = z.
Proof. intros H. apply Z.mod_small. exact H. Qed.

Lemma part_001_header_eq mem sample_rate file_length_sec bits_per_sample :
  part_001.create_wave_header mem sample_rate file_length_sec bits_per_sample
  = wave.object_bytes
      {| wave.file_type_bloc_id := chars "RIFF";
         wave.file_size :=
           to_uint32 (44 + to_uint32 (file_length_sec
                            * to_uint32 (sample_rate * to_uint16 (1 * bits_per_sample / 8))) - 8);
         wave.file_format_id := chars "WAVE";
         wave.format_bloc_id := chars "fmt ";
         wave.bloc_size := 16;
         wave.audio_format := 1;
         wave.channel_count := 1;
         wave.sample_rate := sample_rate;
         wave.bytes_per_sec := to_uint32 (sample_rate * to_uint16 (1 * bits_per_sample / 8));
         wave.bytes_per_bloc := to_uint16 (1 * bits_per_sample / 8);
         wave.bits_per_sample := bits_per_sample;
         wave.data_bloc_id := chars "data";
         wave.data_size :=
           to_uint32 (file_length_sec
                      * to_uint32 (sample_rate * to_uint16 (1 * bits_per_sample / 8))) |}.
Proof.
  unfold part_001.create_wave_header.
  rewrite memcpy_whole; [reflexivity | reflexivity | apply uninitialised_array_length].
Qed.

Lemma mod_fits bits z : 0 < bits -> fits bits (z mod 2 ^ bits).
Proof. intros H. unfold fits. apply Z.mod_pos_bound. apply Z.pow_pos_nonneg; lia. Qed.

Lemma block_align_fits bits : fits 16 bits -> fits 16 (bits / 8).
Proof.
  unfold fits. change (2 ^ 16) with 65536. intros H. split.
  - apply Z.div_pos; lia.
  - apply Z.div_lt_upper_bound; lia.
Qed.

(** X13. The header of the first revision, as a reader sees it, for any
    sample rate, whole number of seconds and bit depth: block align is
    bits_per_sample / 8, byte rate is sample_rate x block align modulo
    2^32, and the data size is seconds x byte rate modulo 2^32; the
    function has no overflow check, the products wrap. *)
Theorem X13_first_revision_header :
  forall mem sample_rate file_length_sec bits_per_sample,
    fits 32 sample_rate -> fits 16 bits_per_sample ->
    read_header
      (part_001.create_wave_header mem sample_rate file_length_sec bits_per_sample)
    = Some {| wave.file_type_bloc_id := chars "RIFF";
              wave.file_size :=
                ((file_length_sec * ((sample_rate * (bits_per_sample / 8)) mod 2 ^ 32))
                   mod 2 ^ 32 + 36) mod 2 ^ 32;
              wave.file_format_id := chars "WAVE";
              wave.format_bloc_id := chars "fmt ";
              wave.bloc_size := 16;
              wave.audio_format := 1;
              wave.channel_count := 1;
              wave.sample_rate := sample_rate;
              wave.bytes_per_sec := (sample_rate * (bits_per_sample / 8)) mod 2 ^ 32;
              wave.bytes_per_bloc := bits_per_sample / 8;
              wave.bits_per_sample := bits_per_sample;
              wave.data_bloc_id := chars "data";
              wave.data_size :=
                (file_length_sec * ((sample_rate * (bits_per_sample / 8)) mod 2 ^ 32))
                  mod 2 ^ 32 |}.
Proof.
  intros mem sample_rate file_length_sec bits_per_sample Hsr Hbits.
  rewrite part_001_header_eq.
  assert (Hb : to_uint16 (1 * bits_per_sample / 8) = bits_per_sample / 8).
  { rewrite Z.mul_1_l. apply to_uint16_small. apply block_align_fits, Hbits. }
  rewrite Hb. unfold to_uint32.
  replace (44 + (file_length_sec * ((sample_rate * (bits_per_sample / 8)) mod 2 ^ 32))
                 mod 2 ^ 32 - 8)
    with ((file_length_sec * ((sample_rate * (bits_per_sample / 8)) mod 2 ^ 32))
            mod 2 ^ 32 + 36) by lia.
  apply read_header_object_bytes.
  unfold well_formed. cbn [wave.file_type_bloc_id wave.file_size wave.file_format_id
    wave.format_bloc_id wave.bloc_size wave.audio_format wave.channel_count
    wave.sample_rate wave.bytes_per_sec wave.bytes_per_bloc wave.bits_per_sample
    wave.data_bloc_id wave.data_size].
  repeat (split; [reflexivity|]).
  split; [apply mod_fits; lia|].
  split; [unfold fits; lia|]. split; [unfold fits; lia|]. split; [unfold fits; lia|].
  split; [exact Hsr|].
  split; [apply mod_fits; lia|].
  split; [apply block_align_fits, Hbits|].
  split; [exact Hbits|].
  apply mod_fits; lia.
Qed.

Lemma X13_first_revision_header_witness :
  read_header (part_001.create_wave_header (fun _ => 0) 48000 5 24)
  = Some {| wave.file_type_bloc_id := chars "RIFF";
            wave.file_size := ((5 * ((48000 * (24 / 8)) mod 2 ^ 32)) mod 2 ^ 32 + 36) mod 2 ^ 32;
            wave.file_format_id := chars "WAVE";
            wave.format_bloc_id := chars "fmt ";
            wave.bloc_size := 16;
            wave.audio_format := 1;
            wave.channel_count := 1;
            wave.sample_rate := 48000;
            wave.bytes_per_sec := (48000 * (24 / 8)) mod 2 ^ 32;
            wave.bytes_per_bloc := 24 / 8;
            wave.bits_per_sample := 24;
            wave.data_bloc_id := chars "data";
            wave.data_size := (5 * ((48000 * (24 / 8)) mod 2 ^ 32)) mod 2 ^ 32 |}.
Proof.
  apply (X13_first_revision_header (fun _ => 0) 48000 5 24); unfold fits; lia.
Defined.

Lemma part_001_create_wave_data_collect sin sample_rate file_length_sec :
  part_001.create_wave_data sin sample_rate file_length_sec =
  match collect sin (part_001.audio_source_of sample_rate)
          (Z.to_nat (part_001.total_sample_count sample_rate file_length_sec)) 0 with
  | Some vs => Returns (flat_map sample_bytes vs)
  | None => Undefined
  end.
Proof. unfold part_001.create_wave_data. rewrite sample_loop_collect. reflexivity. Qed.

(** X14. In the first revision, as long as the products do not wrap, the
    header declares (bits_per_sample / 8) bytes for each of the
    sample_rate x seconds samples while the payload always carries three:
    the declared data size equals the payload length exactly when
    bits_per_sample / 8 = 3 or there is no sample. *)
Theorem X14_first_revision_sizes :
  forall sin mem sample_rate file_length_sec bits_per_sample payload,
    fits 32 sample_rate -> fits 32 file_length_sec -> fits 16 bits_per_sample ->
    sample_rate * file_length_sec <= UINT32_MAX ->
    sample_rate * file_length_sec * (bits_per_sample / 8) <= UINT32_MAX ->
    part_001.create_wave_data sin sample_rate file_length_sec = Returns payload ->
    let header :=
      part_001.create_wave_header mem sample_rate file_length_sec bits_per_sample in
    wave.field wave.off_data_size 4 header
    = bits_per_sample / 8 * (sample_rate * file_length_sec)
    /\ Z.of_nat (List.length payload) = 3 * (sample_rate * file_length_sec)
    /\ (wave.field wave.off_data_size 4 header = Z.of_nat (List.length payload)
        <-> bits_per_sample / 8 = 3 \/ sample_rate * file_length_sec = 0).
Proof.
  intros sin mem sr len bits payload Hsr Hlen Hbits Hn Hbytes Hp header.
  pose proof (block_align_fits bits Hbits) as Hb.
  unfold fits, UINT32_MAX in *.
  change (2 ^ 32) with 4294967296 in *. change (2 ^ 16) with 65536 in *.
  assert (Hds : wave.field wave.off_data_size 4 header = bits / 8 * (sr * len)).
  { subst header. rewrite part_001_header_eq.
    change (wave.field wave.off_data_size 4 (wave.object_bytes ?h))
      with (le_value (le_bytes 4 (wave.data_size h))).
    cbn [wave.data_size]. rewrite le_value_le_bytes.
    change (2 ^ (8 * Z.of_nat 4)) with (2 ^ 32).
    unfold to_uint32. rewrite Zmod_mod.
    rewrite Z.mul_1_l, (to_uint16_small (bits / 8)) by (change (2 ^ 16) with 65536; lia).
    change (2 ^ 32) with 4294967296.
    destruct (Z.eq_dec len 0) as [->|Hne].
    - rewrite Z.mul_0_l, Z.mul_0_r, Z.mul_0_r. reflexivity.
    - assert (sr * (bits / 8) < 4294967296) by nia.
      rewrite (Z.mod_small (sr * (bits / 8))) by nia.
      rewrite Z.mod_small by nia. ring. }
  assert (Hpl : Z.of_nat (List.length payload) = 3 * (sr * len)).
  { rewrite part_001_create_wave_data_collect in Hp.
    destruct (collect _ _ _ _) as [vs|] eqn:Ec; [|discriminate].
    injection Hp as <-. pose proof (collect_length _ _ _ _ _ Ec) as Hl.
    rewrite flat_map_sample_bytes_length.
    unfold part_001.total_sample_count, to_uint32 in Hl.
    change (2 ^ 32) with 4294967296 in Hl.
    rewrite Z.mod_small in Hl by nia. nia. }
  split; [exact Hds|]. split; [exact Hpl|].
  rewrite Hds, Hpl. split.
  - intros H. destruct (Z.eq_dec (sr * len) 0); [right; assumption | left; nia].
  - intros [H|H]; nia.
Qed.

Lemma X14_first_revision_sizes_witness :
  wave.field wave.off_data_size 4 (part_001.create_wave_header (fun _ => 0) 8 1 16)
  = 16 / 8 * (8 * 1)
  /\ Z.of_nat (List.length (repeat 0 24)) = 3 * (8 * 1)
  /\ (wave.field wave.off_data_size 4 (part_001.create_wave_header (fun _ => 0) 8 1 16)
      = Z.of_nat (List.length (repeat 0 24))
      <-> 16 / 8 = 3 \/ 8 * 1 = 0).
Proof.
  apply (X14_first_revision_sizes wavegen.sin_ref (fun _ => 0) 8 1 16 (repeat 0 24)).
  - unfold fits. lia.
  - unfold fits. lia.
  - unfold fits. lia.
  - unfold UINT32_MAX. lia.
  - unfold UINT32_MAX. change (16 / 8) with 2. lia.
  - vm_compute. reflexivity.
Defined.

Lemma part_001_write_to_file_throws env hdr hs data ds path e :
  fst (part_001.write_to_file env hdr hs data ds path) = Throws e ->
  exists text, e = ios_failure text.
Proof.
  unfold part_001.write_to_file.
  destruct (can_open env path); cbn [negb].
  - destruct (header_write_ok env); cbn [negb].
    + destruct (data_write_ok env); cbn [negb fst]; intros H.
      * discriminate.
      * injection H as <-. eexists. reflexivity.
    + cbn [fst]. intros H. injection H as <-. eexists. reflexivity.
  - cbn [fst]. intros H. injection H as <-. eexists. reflexivity.
Qed.

Lemma part_001_create_wave_data_never_throws sin sample_rate file_length_sec e :
  part_001.create_wave_data sin sample_rate file_length_sec <> Throws e.
Proof.
  rewrite part_001_create_wave_data_collect.
  destruct (collect _ _ _ _); discriminate.
Qed.

(** What [CreateWaveFile] does, by the outcome of its [try] block. *)
Lemma CreateWaveFile_cases sin r sample_rate file_length_sec bits_per_sample file_path :
  let result := part_001.CreateWaveFile sin r sample_rate file_length_sec
                  bits_per_sample file_path in
  (fst result = Returns tt
   /\ forall e, In (part_001.failure_line e) (snd result) ->
                exists text, e = ios_failure text)
  \/ fst result = Undefined.
Proof.
  unfold part_001.CreateWaveFile. cbv zeta.
  destruct (part_001.create_wave_data sin sample_rate file_length_sec)
    as [samples|e|] eqn:Es; unfold lift; cbn [then_do].
  - destruct (part_001.write_to_file _ _ _ _ _ _) as [o t] eqn:Ew.
    cbn [app]. destruct o as [[]|e|]; cbn [fst snd].
    + left. split; [reflexivity|]. intros e H.
      apply in_map_iff in H. destruct H as (x & H & _). discriminate H.
    + left. split; [reflexivity|]. intros e' H. apply in_app_or in H.
      destruct H as [H|[H|[]]].
      * apply in_map_iff in H. destruct H as (x & H & _). discriminate H.
      * injection H as <-.
        apply (part_001_write_to_file_throws (run_env r)
                 (part_001.create_wave_header (run_storage r) sample_rate
                    file_length_sec bits_per_sample)
                 (to_uint32 (Z.of_nat (List.length
                    (part_001.create_wave_header (run_storage r) sample_rate
                       file_length_sec bits_per_sample))))
                 samples (to_uint32 (Z.of_nat (List.length samples))) file_path).
        rewrite Ew. reflexivity.
    + right. reflexivity.
  - exfalso. exact (part_001_create_wave_data_never_throws _ _ _ _ Es).
  - right. reflexivity.
Qed.

(** X15. [CreateWaveFile] of the first revision lets no exception escape:
    whatever the arguments, the path and the environment, it returns
    (unless a sample conversion is undefined), and what it reports on the
    console can only be an I/O failure, since neither the header nor the
    payload construction of this revision throws. *)
Theorem X15_first_revision_catches :
  forall sin r sample_rate file_length_sec bits_per_sample file_path,
    let result := part_001.CreateWaveFile sin r sample_rate file_length_sec
                    bits_per_sample file_path in
    (forall e, fst result <> Throws e)
    /\ (forall e, In (part_001.failure_line e) (snd result) ->
                  fst result = Returns tt /\ exists text, e = ios_failure text)
    /\ (can_open (run_env r) file_path = false ->
        fst result <> Undefined ->
        snd result
        = [to_file (ev_open file_path false);
           part_001.failure_line (ios_failure (part_001.open_message file_path))]).
Proof.
  intros sin r sample_rate file_length_sec bits_per_sample file_path result.
  pose proof (CreateWaveFile_cases sin r sample_rate file_length_sec
                bits_per_sample file_path) as H.
  cbv zeta in H. fold result in H.
  split; [|split].
  - intros e He. destruct H as [[H _]|H]; rewrite H in He; discriminate.
  - intros e He. destruct H as [[H H']|H].
    + split; [exact H | apply H', He].
    + exfalso. subst result. unfold part_001.CreateWaveFile in *.
      destruct (part_001.create_wave_data sin sample_rate file_length_sec)
        as [samples|e'|] eqn:Es; unfold lift in *; cbn [then_do] in *.
      * destruct (part_001.write_to_file _ _ _ _ _ _) as [o t] eqn:Ew.
        cbn [app] in *. destruct o as [[]|e'|]; cbn [fst snd] in *; try discriminate.
        apply in_map_iff in He. destruct He as (x & He & _). discriminate He.
      * discriminate.
      * cbn [snd map] in He. destruct He.
  - intros Ho Hdef. subst result. unfold part_001.CreateWaveFile in *.
    destruct (part_001.create_wave_data sin sample_rate file_length_sec)
      as [samples|e'|] eqn:Es; unfold lift in *; cbn [then_do] in *.
    + unfold part_001.write_to_file. rewrite Ho. reflexivity.
    + exfalso. exact (part_001_create_wave_data_never_throws _ _ _ _ Es).
    + exfalso. apply Hdef. reflexivity.
Qed.

Lemma X15_first_revision_catches_witness :
  snd (part_001.CreateWaveFile wavegen.sin_ref
         {| run_storage := fun _ => 0; run_env := environment_of false true true |}
         8 1 24 "audio.wav")
  = [to_file (ev_open "audio.wav" false);
     part_001.failure_line (ios_failure (part_001.open_message "audio.wav"))].
Proof.
  apply (proj2 (proj2 (X15_first_revision_catches wavegen.sin_ref
           {| run_storage := fun _ => 0; run_env := environment_of false true true |}
           8 1 24 "audio.wav"))).
  - reflexivity.
  - vm_compute. discriminate.
Defined.

(** X16. [main] of the first revision returns 0 whenever it returns, also
    when the file could not be generated, and the last thing it prints is
    the line Finished. *)
Theorem X16_first_revision_exit_code :
  forall sin r,
    fst (part_001.main sin r) = Returns 0
    /\ last (snd (part_001.main sin r)) (to_cout [])
       = to_cout [text ("Finished." ++ newline)%string]
    \/ fst (part_001.main sin r) = Undefined.
Proof.
  intros sin r. unfold part_001.main. cbv zeta.
  pose proof (CreateWaveFile_cases sin r 48000 5 24 "audio.wav") as H.
  cbv zeta in H.
  destruct (part_001.CreateWaveFile sin r 48000 5 24 "audio.wav") as [o t].
  cbn [fst snd] in H. destruct H as [[-> _]| ->]; cbn [fst snd].
  - left. split; [reflexivity|]. rewrite app_comm_cons. apply last_last.
  - right. reflexivity.
Qed.
